(** * Course tabs: a shallow embedding of [xmodule/tabs.py]

    The first part follows the Python module: the values a persisted tab
    record can hold, the exceptions the module raises, the [CourseTab] and
    [CourseViewTab] objects, the validators and the [CourseTabList]
    operations.  Plugin classes (the entries of [CourseViewTypeManager]) live
    outside the module; they are gathered in a [Registry] record that every
    operation depending on them takes as a parameter.  The second part fixes
    the vocabulary of the statements and a toy course to run them on; the
    third part proves the properties, and the last part adds further
    properties of the same functions. *)

From Stdlib Require Import ZArith.
From stdpp Require Import base option list strings gmap.

Local Open Scope string_scope.
Local Open Scope list_scope.
Local Open Scope nat_scope.

(** ** Python values stored in tab records *)

Module Py.

(** The JSON-like scalars a tab record holds. *)
Inductive val : Type :=
| None_
| Bool (b : bool)
| Int (z : Z)
| Str (s : string).

#[global] Instance val_eq_dec : EqDecision val.
Proof. solve_decision. Defined.

(** [bool(v)]. *)
Definition truthy (v : val) : bool :=
  match v with
  | None_ => false
  | Bool b => b
  | Int z => negb (z =? 0)%Z
  | Str s => negb (String.eqb s "")
  end.

(** [v is None]. *)
Definition is_None (v : val) : bool :=
  match v with None_ => true | _ => false end.

(** [v == w]: booleans compare with integers by value, everything else
    compares within its own type. *)
Definition eqb (v w : val) : bool :=
  match v, w with
  | None_, None_ => true
  | Bool a, Bool b => Bool.eqb a b
  | Bool a, Int z | Int z, Bool a => (z =? (if a then 1 else 0))%Z
  | Int a, Int b => (a =? b)%Z
  | Str a, Str b => String.eqb a b
  | _, _ => false
  end.

End Py.

(** A dict-type tab: string keys, scalar values. *)
Abbreviation dict := (gmap string Py.val).

(** [d.get(key, default)] on a dict. *)
Definition dict_get (d : dict) (key : string) (default : Py.val) : Py.val :=
  match d !! key with
  | Some v => v
  | None => default
  end.

(** ** Exceptions and results *)

(** What an [InvalidTabsException] complains about (the formatted message,
    kept structured). *)
Inductive complaint : Type :=
| ExpectedAtLeastTwoTabs
| ExpectedFirstTabCourseware
| ExpectedSecondTabCourseInfo
| TabTypeAppearsTooOften (tab_type : string) (count max_num : nat)
| ExpectedKeysNotPresent (expected_keys : list string) (actual_dict : dict).

Inductive exn : Type :=
| InvalidTabsException (msg : complaint)
| KeyError (key : string) (tab_json : dict)
| IndexError
| TypeError
| AttributeError.

Inductive result (A : Type) : Type :=
| Ok (a : A)
| Raise (e : exn).
Arguments Ok {A} a.
Arguments Raise {A} e.

(** State-and-exception monad: the state survives a raised exception, as a
    mutated object or a written log line does in Python. *)
Definition M (S A : Type) : Type := S → result A * S.

Definition ret {S A} (a : A) : M S A := λ s, (Ok a, s).

Definition raise {S A} (e : exn) : M S A := λ s, (Raise e, s).

Definition bind {S A B} (m : M S A) (k : A → M S B) : M S B :=
  λ s, match m s with
       | (Ok a, s') => k a s'
       | (Raise e, s') => (Raise e, s')
       end.

Definition lift {S A} (r : result A) : M S A := λ s, (r, s).

Notation "'do' x <- m ; k" := (bind m (λ x, k))
  (at level 10, x name, m at level 100, k at level 200, only parsing).
Notation "'do_' m ; k" := (bind m (λ _, k))
  (at level 10, m at level 100, k at level 200, only parsing).

(** ** Validators *)

(** [key_checker(expected_keys)(actual_dict, raise_error)]. *)
Definition key_checker (expected_keys : list string)
    (actual_dict : dict) (raise_error : bool) : result bool :=
  let missing : gset string := list_to_set expected_keys ∖ dom actual_dict in
  if bool_decide (missing = ∅) then Ok true
  else if raise_error then
    Raise (InvalidTabsException (ExpectedKeysNotPresent expected_keys actual_dict))
  else Ok false.

Definition need_name (dictionary : dict) (raise_error : bool) : result bool :=
  key_checker ["name"] dictionary raise_error.

(** ** Link functions

    The two closures the module builds, kept as data; [call_link_func] applies
    one to a course identifier and a reverse-url function. *)
Inductive LinkFunc : Type :=
| link_reverse_func (reverse_name : Py.val)
| link_value_func (value : Py.val).

Definition call_link_func (f : LinkFunc) (course_id_string : Py.val)
    (reverse_url_func : Py.val → list Py.val → Py.val) : Py.val :=
  match f with
  | link_reverse_func reverse_name => reverse_url_func reverse_name [course_id_string]
  | link_value_func value => value
  end.

(** ** Tab objects *)

(** The class attributes of a [CourseViewType] plugin that
    [CourseViewTab.__init__] reads.  [cvt_is_collection = None] is a class
    without an [is_collection] attribute. *)
Record CourseViewType : Type := {
  cvt_name : Py.val;
  cvt_title : Py.val;
  cvt_view_name : Py.val;
  cvt_is_hideable : bool;
  cvt_is_collection : option bool;
}.

(** The instance attributes [CourseViewTab.__init__] adds to a tab. *)
Record ViewAttrs : Type := {
  course_view_type : CourseViewType;
  is_hideable_attr : bool;
  is_hidden : Py.val;
  is_collection_attr : bool;
}.

(** A tab object.  [view = None] is an instance of [CourseTab] itself or of
    a subclass that only sets [type]; [view = Some _] is a [CourseViewTab]. *)
Record Tab : Type := {
  name : Py.val;
  tab_id : Py.val;
  link_func : LinkFunc;
  type : Py.val;
  view : option ViewAttrs;
}.

(** The class properties of [CourseTab], shadowed per instance by
    [CourseViewTab.__init__]. *)
Definition is_hideable (tab : Tab) : bool :=
  match view tab with
  | Some v => is_hideable_attr v
  | None => false
  end.

Definition is_movable (tab : Tab) : bool := true.

Definition is_collection (tab : Tab) : bool :=
  match view tab with
  | Some v => is_collection_attr v
  | None => false
  end.

(** What a Python variable of this module may hold where a tab is expected. *)
Inductive PyObj : Type :=
| TabObj (tab : Tab)
| DictObj (d : dict)
| OtherObj (v : Py.val).

(** The course attributes the module reads. *)
Record Course : Type := {
  tabs : list Tab;
  discussion_link : Py.val;
  syllabus_present : option Py.val;
  course_id_string : Py.val;
}.

(** An entry of the plugin manager: a [CourseViewType] subclass, or any other
    class, named by its class name, that is built with
    [tab_type(tab_dict=tab_dict)]. *)
Inductive TabType : Type :=
| ViewType (cvt : CourseViewType)
| TabClass (cls : string).

(** The plugin classes, which live outside the module: the manager's lookup
    ([None] stands for [PluginError]) and the class methods the module calls. *)
Record Registry {Settings User : Type} : Type := {
  get_plugin : Py.val → option TabType;
  get_course_view_types : list TabType;
  view_type_validate : CourseViewType → dict → result bool;
  view_type_is_enabled : CourseViewType → Course → Settings → option User → bool;
  view_type_items : CourseViewType → Course → list Tab;
  tab_class_validate : string → dict → result bool;
  tab_class_new : string → dict → result Tab;
}.
Arguments Registry : clear implicits.

(** Lines written with [log.exception]. *)
Inductive LogRecord : Type :=
| UnknownTabType (tab_type_name : Py.val) (tab_types : list TabType).

Abbreviation Log := (list LogRecord).

Definition log_exception (r : LogRecord) : M Log unit :=
  λ log, (Ok tt, log ++ [r]).

(** ** class CourseTab: the methods a subclass can override *)

Definition CourseTab_is_enabled {Settings User} (self : Tab) (course : Course)
    (settings : Settings) (user : option User) : bool := true.

Definition CourseTab_to_json (self : Tab) : dict :=
  {[ "type" := type self; "name" := name self ]}.

(** [self_json] is [self.to_json()], which the error message formats. *)
Definition CourseTab_getitem (self_json : dict) (self : Tab) (key : string) : result Py.val :=
  if String.eqb key "name" then Ok (name self)
  else if String.eqb key "type" then Ok (type self)
  else if String.eqb key "tab_id" then Ok (tab_id self)
  else Raise (KeyError key self_json).

(** [self[key] = value]: the tab after the assignment. *)
Definition CourseTab_setitem (self_json : dict) (self : Tab) (key : string)
    (value : Py.val) : result Tab :=
  if String.eqb key "name" then
    Ok {| name := value; tab_id := tab_id self; link_func := link_func self;
          type := type self; view := view self |}
  else if String.eqb key "tab_id" then
    Ok {| name := name self; tab_id := value; link_func := link_func self;
          type := type self; view := view self |}
  else Raise (KeyError key self_json).

Definition CourseTab_validate (tab_dict : dict) (raise_error : bool) : result bool :=
  key_checker ["type"] tab_dict raise_error.

(** ** class CourseViewTab(CourseTab) *)

(** [tab_dict if tab_dict else None]: an empty dict counts as no dict. *)
Definition if_given (tab_dict : option dict) : option dict :=
  match tab_dict with
  | Some d => if bool_decide (d = ∅) then None else Some d
  | None => None
  end.

Definition CourseViewTab_init (course_view_type : CourseViewType) (tab_dict : option dict) : Tab :=
  {| name := match if_given tab_dict with
             | Some d => dict_get d "name" (cvt_title course_view_type)
             | None => cvt_title course_view_type
             end;
     tab_id := cvt_name course_view_type;
     link_func := link_reverse_func (cvt_view_name course_view_type);
     type := cvt_name course_view_type;
     view := Some {|
       course_view_type := course_view_type;
       is_hideable_attr := cvt_is_hideable course_view_type;
       is_hidden := match if_given tab_dict with
                    | Some d => dict_get d "is_hidden" (Py.Bool false)
                    | None => Py.Bool false
                    end;
       is_collection_attr := match cvt_is_collection course_view_type with
                             | Some b => b
                             | None => false
                             end |} |}.

Definition CourseViewTab_is_enabled {Settings User} (R : Registry Settings User)
    (v : ViewAttrs) (self : Tab) (course : Course) (settings : Settings)
    (user : option User) : bool :=
  if negb (CourseTab_is_enabled self course settings user) then false
  else view_type_is_enabled R (course_view_type v) course settings user.

Definition CourseViewTab_to_json (v : ViewAttrs) (self : Tab) : dict :=
  let to_json_val := CourseTab_to_json self in
  if Py.truthy (is_hidden v) then <["is_hidden" := Py.Bool true]> to_json_val
  else to_json_val.

Definition CourseViewTab_getitem (v : ViewAttrs) (self : Tab) (key : string) : result Py.val :=
  if String.eqb key "is_hidden" then Ok (is_hidden v)
  else CourseTab_getitem (CourseViewTab_to_json v self) self key.

Definition CourseViewTab_setitem (v : ViewAttrs) (self : Tab) (key : string)
    (value : Py.val) : result Tab :=
  if String.eqb key "is_hidden" then
    Ok {| name := name self; tab_id := tab_id self; link_func := link_func self;
          type := type self;
          view := Some {| course_view_type := course_view_type v;
                          is_hideable_attr := is_hideable_attr v;
                          is_hidden := value;
                          is_collection_attr := is_collection_attr v |} |}
  else CourseTab_setitem (CourseViewTab_to_json v self) self key value.

Definition CourseViewTab_items {Settings User} (R : Registry Settings User)
    (v : ViewAttrs) (course : Course) : list Tab :=
  view_type_items R (course_view_type v) course.

(** ** Method dispatch on a tab object *)

Definition tab_is_enabled {Settings User} (R : Registry Settings User) (tab : Tab)
    (course : Course) (settings : Settings) (user : option User) : bool :=
  match view tab with
  | Some v => CourseViewTab_is_enabled R v tab course settings user
  | None => CourseTab_is_enabled tab course settings user
  end.

Definition tab_to_json (tab : Tab) : dict :=
  match view tab with
  | Some v => CourseViewTab_to_json v tab
  | None => CourseTab_to_json tab
  end.

Definition tab_getitem (tab : Tab) (key : string) : result Py.val :=
  match view tab with
  | Some v => CourseViewTab_getitem v tab key
  | None => CourseTab_getitem (CourseTab_to_json tab) tab key
  end.

Definition tab_setitem (tab : Tab) (key : string) (value : Py.val) : result Tab :=
  match view tab with
  | Some v => CourseViewTab_setitem v tab key value
  | None => CourseTab_setitem (CourseTab_to_json tab) tab key value
  end.

(** ** class CourseTab: the methods no class of the module overrides *)

(** [self.get(key, default)]: only [KeyError] is caught. *)
Definition CourseTab_get (self : Tab) (key : string) (default : Py.val) : result Py.val :=
  match tab_getitem self key with
  | Ok v => Ok v
  | Raise (KeyError _ _) => Ok default
  | Raise e => Raise e
  end.

(** [other.get(key)] and [other[key]] for whatever [other] is. *)
Definition obj_get (other : PyObj) (key : string) : result Py.val :=
  match other with
  | TabObj tab => CourseTab_get tab key Py.None_
  | DictObj d => Ok (dict_get d key Py.None_)
  | OtherObj _ => Raise AttributeError
  end.

Definition obj_getitem (other : PyObj) (key : string) : result Py.val :=
  match other with
  | TabObj tab => tab_getitem tab key
  | DictObj d =>
      match d !! key with
      | Some v => Ok v
      | None => Raise (KeyError key d)
      end
  | OtherObj _ => Raise TypeError
  end.

Definition rbind {A B} (r : result A) (k : A → result B) : result B :=
  match r with
  | Ok a => k a
  | Raise e => Raise e
  end.

(** [self == other]. *)
Definition CourseTab_eq (self : Tab) (other : PyObj) : result bool :=
  rbind (match other with
         | DictObj d => rbind (CourseTab_validate d false) (λ ok, Ok (negb ok))
         | _ => Ok false
         end) (λ invalid_dict,
  if invalid_dict : bool then Ok false
  else
    rbind (obj_get other "name") (λ other_name,
    rbind (if Py.is_None other_name then Ok true
           else rbind (obj_getitem other "name") (λ n, Ok (Py.eqb (name self) n)))
      (λ name_is_eq,
    rbind (obj_get other "type") (λ other_type,
    Ok (Py.eqb (type self) other_type && name_is_eq))))).

(** [self != other]. *)
Definition CourseTab_ne (self : Tab) (other : PyObj) : result bool :=
  rbind (CourseTab_eq self other) (λ b, Ok (negb b)).

(** [tab_type.validate(tab_dict)] on a registered class. *)
Definition tab_type_validate {Settings User} (R : Registry Settings User)
    (tab_type : TabType) (tab_dict : dict) : result bool :=
  match tab_type with
  | ViewType cvt => view_type_validate R cvt tab_dict
  | TabClass cls => tab_class_validate R cls tab_dict
  end.

(** [CourseTab.from_json(tab_dict)]; [None] is Python's [None]. *)
Definition CourseTab_from_json {Settings User} (R : Registry Settings User)
    (tab_dict : dict) : M Log (option Tab) :=
  let tab_type_name := dict_get tab_dict "type" Py.None_ in
  match get_plugin R tab_type_name with
  | None =>
      do_ log_exception (UnknownTabType tab_type_name (get_course_view_types R));
      ret None
  | Some tab_type =>
      do_ lift (tab_type_validate R tab_type tab_dict);
      match tab_type with
      | ViewType cvt => ret (Some (CourseViewTab_init cvt (Some tab_dict)))
      | TabClass cls =>
          do tab <- lift (tab_class_new R cls tab_dict);
          ret (Some tab)
      end
  end.

(** ** class CourseTabList *)

Module CourseTabList.

(** The state [initialize_default] works on: the list object [course.tabs],
    which receives whatever [CourseTab.from_json] returned, and the log. *)
Record InitState : Type := {
  course_tabs : list (option Tab);
  log : Log;
}.

Definition with_log {A} (m : M Log A) : M InitState A :=
  λ s, let (r, l) := m (log s) in (r, {| course_tabs := course_tabs s; log := l |}).

(** [course.tabs.extend(new_tabs)]. *)
Definition extend (new_tabs : list (option Tab)) : M InitState unit :=
  λ s, (Ok tt, {| course_tabs := course_tabs s ++ new_tabs; log := log s |}).

Definition initialize_default {Settings User} (R : Registry Settings User)
    (course : Course) : M InitState unit :=
  do courseware <- with_log (CourseTab_from_json R
    {[ "type" := Py.Str "courseware"; "name" := Py.Str "Courseware" ]});
  do course_info <- with_log (CourseTab_from_json R
    {[ "type" := Py.Str "course_info"; "name" := Py.Str "Course Info" ]});
  do_ extend [courseware; course_info];
  do_ (match syllabus_present course with
       | Some present =>
           if Py.truthy present then
             do syllabus <- with_log (CourseTab_from_json R
               {[ "type" := Py.Str "syllabus"; "name" := Py.Str "Syllabus" ]});
             extend [syllabus]
           else ret tt
       | None => ret tt
       end);
  do discussion_tab <-
    (if Py.truthy (discussion_link course) then
       with_log (CourseTab_from_json R
         {[ "type" := Py.Str "external_discussion";
            "name" := Py.Str "External Discussion";
            "link" := discussion_link course ]})
     else
       with_log (CourseTab_from_json R
         {[ "type" := Py.Str "discussion"; "name" := Py.Str "Discussion" ]}));
  do textbooks <- with_log (CourseTab_from_json R
    {[ "type" := Py.Str "textbooks"; "name" := Py.Str "Textbooks" ]});
  do wiki <- with_log (CourseTab_from_json R
    {[ "type" := Py.Str "wiki"; "name" := Py.Str "Wiki" ]});
  do progress <- with_log (CourseTab_from_json R
    {[ "type" := Py.Str "progress"; "name" := Py.Str "Progress" ]});
  extend [textbooks; discussion_tab; wiki; progress].

(** The loop of [get_discussion] over [course.tabs]. *)
Fixpoint find_discussion_tab (course_tabs : list Tab) : option Tab :=
  match course_tabs with
  | [] => None
  | tab :: rest =>
      if Py.eqb (type tab) (Py.Str "discussion")
         || Py.eqb (type tab) (Py.Str "external_discussion")
      then Some tab
      else find_discussion_tab rest
  end.

Definition get_discussion {Settings User} (R : Registry Settings User)
    (course : Course) : M Log (option Tab) :=
  if Py.truthy (discussion_link course) then
    CourseTab_from_json R
      {[ "type" := Py.Str "external_discussion";
         "name" := Py.Str "External Discussion";
         "link" := discussion_link course ]}
  else
    ret (find_discussion_tab (tabs course)).

(** [next((tab for tab in tab_list if cond(tab)), None)]. *)
Fixpoint next_or_None (cond : Tab → result bool) (tab_list : list Tab) : result (option Tab) :=
  match tab_list with
  | [] => Ok None
  | tab :: rest =>
      rbind (cond tab) (λ b, if b : bool then Ok (Some tab) else next_or_None cond rest)
  end.

Definition get_tab_by_slug (tab_list : list Tab) (url_slug : Py.val) : result (option Tab) :=
  next_or_None
    (λ tab, rbind (CourseTab_get tab "url_slug" Py.None_) (λ slug, Ok (Py.eqb slug url_slug)))
    tab_list.

Definition get_tab_by_type (tab_list : list Tab) (tab_type : Py.val) : result (option Tab) :=
  next_or_None (λ tab, Ok (Py.eqb (type tab) tab_type)) tab_list.

Definition get_tab_by_id (tab_list : list Tab) (tab_id_ : Py.val) : result (option Tab) :=
  next_or_None (λ tab, Ok (Py.eqb (tab_id tab) tab_id_)) tab_list.

(** The generator, run to exhaustion: what it yields, in order.  A tab that
    is not a [CourseViewTab] has the class properties [is_hideable = False]
    and [is_collection = False]; [not user] holds when no user is given. *)
Definition iterate_displayable {Settings User} (R : Registry Settings User)
    (course : Course) (settings : Settings) (user : option User)
    (inline_collections : bool) : list Tab :=
  (fix loop (l : list Tab) : list Tab :=
     match l with
     | [] => []
     | tab :: rest =>
         (if tab_is_enabled R tab course settings user
             && (negb (bool_decide (is_Some user))
                 || match view tab with
                    | None => true
                    | Some v => negb (is_hideable_attr v) || negb (Py.truthy (is_hidden v))
                    end)
          then
            match view tab with
            | None => [tab]
            | Some v =>
                if is_collection_attr v then
                  if inline_collections then CourseViewTab_items R v course
                  else if (0 <? length (CourseViewTab_items R v course))%nat then [tab]
                  else []
                else [tab]
            end
          else []) ++ loop rest
     end) (tabs course).

(** [sum(1 for tab in tabs if tab.get('type') == tab_type)]. *)
Fixpoint count_tabs_of_type (tabs : list PyObj) (tab_type : string) : result nat :=
  match tabs with
  | [] => Ok 0%nat
  | tab :: rest =>
      rbind (obj_get tab "type") (λ ty,
      rbind (count_tabs_of_type rest tab_type) (λ n,
      Ok (if Py.eqb ty (Py.Str tab_type) then (1 + n)%nat else n)))
  end.

Definition _validate_num_tabs_of_type (tabs : list PyObj) (tab_type : string)
    (max_num : nat) : result unit :=
  rbind (count_tabs_of_type tabs tab_type) (λ count,
  if (max_num <? count)%nat then
    Raise (InvalidTabsException (TabTypeAppearsTooOften tab_type count max_num))
  else Ok tt).

(** The tab types that should appear only once. *)
Definition singleton_types : list string :=
  ["courseware"; "course_info"; "notes"; "textbooks"; "pdf_textbooks"; "html_textbooks"].

Fixpoint for_each_type (types : list string) (body : string → result unit) : result unit :=
  match types with
  | [] => Ok tt
  | tab_type :: rest => rbind (body tab_type) (λ _, for_each_type rest body)
  end.

(** [validate_tabs(tabs)]; [None] is Python's [None]. *)
Definition validate_tabs (tabs : option (list PyObj)) : result unit :=
  match tabs with
  | None => Ok tt
  | Some tabs =>
      if (length tabs =? 0)%nat then Ok tt
      else if (length tabs <? 2)%nat then Raise (InvalidTabsException ExpectedAtLeastTwoTabs)
      else
        rbind (match tabs !! 0 with
               | Some tab => obj_get tab "type"
               | None => Raise IndexError
               end) (λ type0,
        if negb (Py.eqb type0 (Py.Str "courseware")) then
          Raise (InvalidTabsException ExpectedFirstTabCourseware)
        else
          rbind (match tabs !! 1 with
                 | Some tab => obj_get tab "type"
                 | None => Raise IndexError
                 end) (λ type1,
          if negb (Py.eqb type1 (Py.Str "course_info")) then
            Raise (InvalidTabsException ExpectedSecondTabCourseInfo)
          else
            for_each_type singleton_types (λ tab_type,
              _validate_num_tabs_of_type tabs tab_type 1)))
  end.

(** The loop of [to_json]: [json_data] is the list built so far. *)
Fixpoint to_json_loop (values : list PyObj) (json_data : list dict) : list dict :=
  match values with
  | [] => json_data
  | TabObj val :: rest => to_json_loop rest (json_data ++ [tab_to_json val])
  | DictObj val :: rest => to_json_loop rest (json_data ++ [val])
  | OtherObj _ :: rest => to_json_loop rest json_data
  end.

(** [to_json(values)]: a [None] or empty [values] is falsy. *)
Definition to_json (values : option (list PyObj)) : list dict :=
  match values with
  | Some ((_ :: _) as values) => to_json_loop values []
  | _ => []
  end.

(** The loop of [from_json]: [tabs] is the list built so far. *)
Fixpoint from_json_loop {Settings User} (R : Registry Settings User)
    (values : list dict) (tabs : list Tab) : M Log (list Tab) :=
  match values with
  | [] => ret tabs
  | tab_dict :: rest =>
      do tab <- CourseTab_from_json R tab_dict;
      from_json_loop R rest (match tab with
                             | Some tab => tabs ++ [tab]
                             | None => tabs
                             end)
  end.

(** [from_json(values)]. *)
Definition from_json {Settings User} (R : Registry Settings User)
    (values : option (list dict)) : M Log (list Tab) :=
  do_ lift (validate_tabs (option_map (map DictObj) values));
  match values with
  | Some values => from_json_loop R values []
  | None => raise TypeError
  end.

End CourseTabList.

(** ** A concrete plugin set

    The built-in tab types (Courseware, Course Info, Syllabus, Textbooks,
    Discussion, External Discussion, Wiki, Progress).  Their plugin classes
    are registered outside the module, so this is one possible registry, used
    to run the module on examples; no general statement depends on it. *)

Module Builtin.

Definition view_type (name title view_name : string) (hideable : bool)
    (collection : option bool) : CourseViewType :=
  {| cvt_name := Py.Str name; cvt_title := Py.Str title;
     cvt_view_name := Py.Str view_name; cvt_is_hideable := hideable;
     cvt_is_collection := collection |}.

Definition courseware := view_type "courseware" "Courseware" "courseware" false None.
Definition course_info := view_type "course_info" "Course Info" "info" false None.
Definition syllabus := view_type "syllabus" "Syllabus" "syllabus" false None.
Definition textbooks := view_type "textbooks" "Textbooks" "book" false (Some true).
Definition discussion := view_type "discussion" "Discussion" "forum" false None.
Definition wiki := view_type "wiki" "Wiki" "course_wiki" true None.
Definition progress := view_type "progress" "Progress" "progress" true None.

Definition view_types : list CourseViewType :=
  [courseware; course_info; syllabus; textbooks; discussion; wiki; progress].

(** The settings object: the names of the features switched on. *)
Abbreviation Settings := (gset string).
Abbreviation User := string.

Definition single_textbook (title : string) (index : string) : Tab :=
  {| name := Py.Str title; tab_id := Py.Str ("textbook/" +:+ index);
     link_func := link_reverse_func (Py.Str "book");
     type := Py.Str "single_textbook"; view := None |}.

(** Modelled from the spec: the External Discussion class, whose link
    resolver is the fixed literal [link] of the record. *)
Definition external_discussion_new (tab_dict : dict) : result Tab :=
  match tab_dict !! "link" with
  | Some link =>
      Ok {| name := dict_get tab_dict "name" Py.None_; tab_id := Py.Str "discussion";
            link_func := link_value_func link;
            type := Py.Str "external_discussion"; view := None |}
  | None => Raise (KeyError "link" tab_dict)
  end.

(** Modelled from the spec: the registry keyed by type name, with the
    enablement rules reading feature flags and the user, and Textbooks the
    one collection type, expanding into one sub-tab per book. *)
Definition registry : Registry Settings User :=
  {| get_plugin := λ n,
       if Py.eqb n (Py.Str "external_discussion") then Some (TabClass "ExternalDiscussionTab")
       else ViewType <$> List.find (λ cvt, Py.eqb (cvt_name cvt) n) view_types;
     get_course_view_types :=
       (ViewType <$> view_types) ++ [TabClass "ExternalDiscussionTab"];
     view_type_validate := λ _ tab_dict, need_name tab_dict true;
     view_type_is_enabled := λ cvt _ settings user,
       if Py.eqb (cvt_name cvt) (Py.Str "wiki") then bool_decide ("WIKI_ENABLED" ∈ settings)
       else if Py.eqb (cvt_name cvt) (Py.Str "progress") then bool_decide (is_Some user)
       else true;
     view_type_items := λ cvt _,
       if Py.eqb (cvt_name cvt) (Py.Str "textbooks")
       then [single_textbook "Book0" "0"; single_textbook "Book1" "1"]
       else [];
     tab_class_validate := λ _ tab_dict, key_checker ["name"; "link"] tab_dict true;
     tab_class_new := λ _, external_discussion_new |}.

End Builtin.

(** * Vocabulary of the properties

    The notions the statements below are phrased in: entries of a tab list
    and their validity, what equality compares, which stored tabs are
    selected for display, what a record deserializes to, and the records of
    the default tabs. *)

(** An entry of a tab list: a tab object or a dict-type tab. *)
Definition entry (x : Tab + dict) : PyObj :=
  match x with
  | inl tab => TabObj tab
  | inr d => DictObj d
  end.

(** Its ['type'] value ([None] when a dict has none). *)
Definition entry_type (x : Tab + dict) : Py.val :=
  match x with
  | inl tab => type tab
  | inr d => dict_get d "type" Py.None_
  end.

(** How many entries have the given type. *)
Definition occurrences (tab_type : string) (l : list (Tab + dict)) : nat :=
  length (filter (λ x, entry_type x = Py.Str tab_type) l).

(** The structural invariants of a tab list, as the data model states them. *)
Definition valid_tab_list (l : list (Tab + dict)) : Prop :=
  l = [] ∨
  (2 ≤ length l
   ∧ entry_type <$> l !! 0 = Some (Py.Str "courseware")
   ∧ entry_type <$> l !! 1 = Some (Py.Str "course_info")
   ∧ ∀ tab_type, tab_type ∈ CourseTabList.singleton_types → occurrences tab_type l ≤ 1).

(** The ['name'] value of an entry ([None] when a dict has none). *)
Definition entry_name (x : Tab + dict) : Py.val :=
  match x with
  | inl tab => name tab
  | inr d => dict_get d "name" Py.None_
  end.

(** A plain record is valid when it has a ['type'] key; a tab always is. *)
Definition valid_entry (x : Tab + dict) : bool :=
  match x with
  | inl _ => true
  | inr d => bool_decide (is_Some (d !! "type"))
  end.

(** What [self == other] computes: the name test looks at [other]'s name only. *)
Definition equal_to (self : Tab) (other : Tab + dict) : bool :=
  valid_entry other
  && Py.eqb (type self) (entry_type other)
  && (Py.is_None (entry_name other) || Py.eqb (name self) (entry_name other)).

(** Equality as the data model words it: a name absent on either side. *)
Definition equal_either_side (self : Tab) (other : Tab + dict) : bool :=
  valid_entry other
  && Py.eqb (type self) (entry_type other)
  && (Py.is_None (name self) || Py.is_None (entry_name other)
      || Py.eqb (name self) (entry_name other)).

(** A tab deserialized from a record whose name is null, and a record of the
    same type that does carry a name. *)
Definition nameless_wiki : Tab :=
  CourseViewTab_init Builtin.wiki
    (Some {[ "type" := Py.Str "wiki"; "name" := Py.None_ ]}).

Definition wiki_record : dict :=
  {[ "type" := Py.Str "wiki"; "name" := Py.Str "Wiki" ]}.

(** The course with another stored tab list. *)
Definition with_tabs (course : Course) (stored : list Tab) : Course :=
  {| tabs := stored; discussion_link := discussion_link course;
     syllabus_present := syllabus_present course;
     course_id_string := course_id_string course |}.

(** The record [get_discussion] and [initialize_default] build for a course
    with a discussion link. *)
Definition external_discussion_record (link : Py.val) : dict :=
  {[ "type" := Py.Str "external_discussion";
     "name" := Py.Str "External Discussion";
     "link" := link ]}.

(** A tab is of one of the two discussion types. *)
Definition is_discussion_tab (tab : Tab) : bool :=
  Py.eqb (type tab) (Py.Str "discussion")
  || Py.eqb (type tab) (Py.Str "external_discussion").

(** The course has a [syllabus_present] attribute and it is set. *)
Definition declares_syllabus (course : Course) : bool :=
  match syllabus_present course with
  | Some present => Py.truthy present
  | None => false
  end.

(** The type names of the tabs [initialize_default] appends, in order. *)
Definition default_types (course : Course) : list string :=
  ["courseware"; "course_info"]
  ++ (if declares_syllabus course then ["syllabus"] else [])
  ++ ["textbooks";
      if Py.truthy (discussion_link course) then "external_discussion" else "discussion";
      "wiki"; "progress"].

(** The record [initialize_default] builds for a tab type with a title. *)
Definition titled (tab_type title : string) : dict :=
  {[ "type" := Py.Str tab_type; "name" := Py.Str title ]}.

(** Every record [initialize_default] may build for the course. *)
Definition builtin_records (course : Course) : list dict :=
  [titled "courseware" "Courseware"; titled "course_info" "Course Info";
   titled "syllabus" "Syllabus";
   external_discussion_record (discussion_link course);
   titled "discussion" "Discussion"; titled "textbooks" "Textbooks";
   titled "wiki" "Wiki"; titled "progress" "Progress"].

Section vocabulary.
Context {Settings User : Type} (R : Registry Settings User).

(** The ['type'] value [CourseTab.from_json] looks up. *)
Definition record_type (tab_dict : dict) : Py.val := dict_get tab_dict "type" Py.None_.

(** What [CourseTab.from_json] builds from a record whose type resolved to
    [tab_type]: the class validates the record, then constructs the tab. *)
Definition construct (tab_type : TabType) (tab_dict : dict) : result Tab :=
  rbind (tab_type_validate R tab_type tab_dict) (λ _,
  match tab_type with
  | ViewType cvt => Ok (CourseViewTab_init cvt (Some tab_dict))
  | TabClass cls => tab_class_new R cls tab_dict
  end).

(** The records of a list whose type is registered, with the class each
    resolves to, in order. *)
Definition known_records (values : list dict) : list (TabType * dict) :=
  omap (λ tab_dict, (λ tab_type, (tab_type, tab_dict)) <$> get_plugin R (record_type tab_dict))
    values.

(** Build one tab per record, in order; the first exception ends it. *)
Fixpoint construct_all (records : list (TabType * dict)) : result (list Tab) :=
  match records with
  | [] => Ok []
  | (tab_type, tab_dict) :: rest =>
      rbind (construct tab_type tab_dict) (λ tab,
      rbind (construct_all rest) (λ tabs, Ok (tab :: tabs)))
  end.

(** The records of a list whose type is registered. *)
Definition known (values : list dict) : list dict :=
  filter (λ tab_dict, is_Some (get_plugin R (record_type tab_dict))) values.

(** [tab] is what [CourseTab.from_json] returns for [tab_dict]. *)
Definition deserializes_to (tab_dict : dict) (tab : Tab) : Prop :=
  ∀ log, CourseTab_from_json R tab_dict log = (Ok (Some tab), log).

(** A tab has a known, valid type: its type is registered under its own
    name and the registered class accepts the tab's serialized form (and, for
    a class built outside the module, rebuilds a tab of that type and name). *)
Definition known_valid (tab : Tab) : Prop :=
  match get_plugin R (type tab) with
  | Some (ViewType cvt) =>
      cvt_name cvt = type tab
      ∧ ∃ ok, view_type_validate R cvt (tab_to_json tab) = Ok ok
  | Some (TabClass cls) =>
      (∃ ok, tab_class_validate R cls (tab_to_json tab) = Ok ok)
      ∧ ∃ tab', tab_class_new R cls (tab_to_json tab) = Ok tab'
                ∧ type tab' = type tab ∧ name tab' = name tab
  | None => False
  end.

(** The tab is rebuilt by the module's own [CourseViewTab]. *)
Definition view_registered (tab : Tab) : Prop :=
  ∃ cvt, get_plugin R (type tab) = Some (ViewType cvt).

(** The External Discussion class, which is registered outside the module,
    builds from the record a tab of type ['external_discussion'] whose link
    function returns the record's [link]. *)
Definition external_discussion_tab (link : Py.val) (tab : Tab) : Prop :=
  deserializes_to (external_discussion_record link) tab
  ∧ type tab = Py.Str "external_discussion"
  ∧ link_func tab = link_value_func link.

(** The type of a record is registered: [CourseTab.from_json] turns the
    record into a tab of that type. *)
Definition registered (tab_dict : dict) : Prop :=
  ∃ tab, deserializes_to tab_dict tab ∧ type tab = record_type tab_dict.

Section display.
Context (course : Course) (settings : Settings).

(** The [is_hidden] flag of a tab; a tab that is not a [CourseViewTab] has
    none, and is never hideable. *)
Definition hidden (tab : Tab) : bool :=
  match view tab with
  | Some v => Py.truthy (is_hidden v)
  | None => false
  end.

(** The test [iterate_displayable] applies to each stored tab. *)
Definition passes (user : option User) (tab : Tab) : bool :=
  tab_is_enabled R tab course settings user
  && (negb (bool_decide (is_Some user)) || negb (is_hideable tab) || negb (hidden tab)).

(** [tab.items(course)], for a collection tab. *)
Definition items (tab : Tab) : list Tab :=
  match view tab with
  | Some v => CourseViewTab_items R v course
  | None => []
  end.

(** What is yielded for a stored tab that passes the test. *)
Definition yielded_for (inline_collections : bool) (tab : Tab) : list Tab :=
  if is_collection tab then
    if inline_collections then items tab
    else if bool_decide (items tab = []) then [] else [tab]
  else [tab].

End display.

End vocabulary.

(** A course that stores a Textbooks tab after the two required tabs. *)
Module Bookish.

Definition shelf : Tab := CourseViewTab_init Builtin.textbooks None.

Definition course : Course :=
  {| tabs := [CourseViewTab_init Builtin.courseware None;
              CourseViewTab_init Builtin.course_info None; shelf];
     discussion_link := Py.None_; syllabus_present := None;
     course_id_string := Py.Str "edX/toy/2012_Fall" |}.

End Bookish.

(** A plugin set with a nested collection: the items of the Textbooks tab
    are themselves Textbooks tabs. *)
Module Nested.

Definition shelf : Tab := CourseViewTab_init Builtin.textbooks None.

Definition registry : Registry Builtin.Settings Builtin.User :=
  {| get_plugin := get_plugin Builtin.registry;
     get_course_view_types := get_course_view_types Builtin.registry;
     view_type_validate := view_type_validate Builtin.registry;
     view_type_is_enabled := view_type_is_enabled Builtin.registry;
     view_type_items := λ cvt _,
       if Py.eqb (cvt_name cvt) (Py.Str "textbooks") then [shelf] else [];
     tab_class_validate := tab_class_validate Builtin.registry;
     tab_class_new := tab_class_new Builtin.registry |}.

Definition course : Course :=
  {| tabs := [shelf]; discussion_link := Py.None_; syllabus_present := None;
     course_id_string := Py.Str "edX/toy/2012_Fall" |}.

End Nested.

(** ** A toy course

    A course with a discussion link, a declared syllabus and a stored
    Discussion tab, to be read under the built-in plugin set. *)

Definition stored_tabs : list Tab :=
  [CourseViewTab_init Builtin.courseware None;
   CourseViewTab_init Builtin.course_info None;
   CourseViewTab_init Builtin.discussion None;
   CourseViewTab_init Builtin.wiki
     (Some {[ "type" := Py.Str "wiki"; "name" := Py.Str "Wiki"; "is_hidden" := Py.Bool true ]})].

Definition toy_course : Course :=
  {| tabs := stored_tabs;
     discussion_link := Py.Str "http://forum.example";
     syllabus_present := Some (Py.Bool true);
     course_id_string := Py.Str "edX/toy/2012_Fall" |}.

(** The tab the built-in External Discussion class builds for the course. *)
Definition forum_tab : Tab :=
  {| name := Py.Str "External Discussion"; tab_id := Py.Str "discussion";
     link_func := link_value_func (Py.Str "http://forum.example");
     type := Py.Str "external_discussion"; view := None |}.

(** The minimal list in the wrong order. *)
Definition swapped_records : list dict :=
  [titled "course_info" "Course Info"; titled "courseware" "Courseware"].

(** ** Vocabulary of the further properties *)

(** The keys [tab[key] = value] accepts: ['name'] and ['tab_id'], and
    ['is_hidden'] on a [CourseViewTab]. *)
Definition settable (tab : Tab) (key : string) : bool :=
  String.eqb key "name" || String.eqb key "tab_id"
  || (bool_decide (is_Some (view tab)) && String.eqb key "is_hidden").

(** The first singleton type that occurs more than once in a list. *)
Definition first_repeated (l : list (Tab + dict)) : option string :=
  List.find (λ tab_type, 1 <? occurrences tab_type l) CourseTabList.singleton_types.

(** What a first-match scan returns. *)
Definition first_match (p : Tab → bool) (tab_list : list Tab) (found : option Tab) : Prop :=
  match found with
  | Some tab =>
      ∃ before after, tab_list = before ++ tab :: after
                      ∧ p tab = true
                      ∧ ∀ other, In other before → p other = false
  | None => ∀ tab, In tab tab_list → p tab = false
  end.

(** The singleton check of [validate_tabs], on the count of each type. *)
Definition check_singletons (l : list (Tab + dict)) : result unit :=
  CourseTabList.for_each_type CourseTabList.singleton_types (λ tab_type,
    if decide (occurrences tab_type l ≤ 1) then Ok tt
    else Raise (InvalidTabsException
                  (TabTypeAppearsTooOften tab_type (occurrences tab_type l) 1))).

(** A log line written for a record of [values] whose type is unknown. *)
Definition unknown_line {Settings User} (R : Registry Settings User)
    (values : list dict) (line : LogRecord) : Prop :=
  ∃ tab_dict, tab_dict ∈ values
              ∧ get_plugin R (record_type tab_dict) = None
              ∧ line = UnknownTabType (record_type tab_dict) (get_course_view_types R).

(** A step of the initializer appends to [course.tabs] and to the log, and
    appends [n] tabs when it returns. *)
Definition grows_by {A} (n : nat) (m : M CourseTabList.InitState A) : Prop :=
  ∀ s, ∃ added lines,
    CourseTabList.course_tabs (m s).2 = CourseTabList.course_tabs s ++ added
    ∧ CourseTabList.log (m s).2 = CourseTabList.log s ++ lines
    ∧ ∀ a, (m s).1 = Ok a → length added = n.

(** A second tab of the same name and type as the stored Wiki tab of the
    toy course, with another id and not hidden. *)
Definition other_wiki : Tab :=
  {| name := Py.Str "Wiki"; tab_id := Py.Str "wiki-2";
     link_func := link_value_func (Py.Str "/wiki"); type := Py.Str "wiki"; view := None |}.

(** A static tab, of a type that may occur any number of times. *)
Definition static_tab (title : string) : Tab + dict :=
  inr {[ "type" := Py.Str "static_tab"; "name" := Py.Str title ]}.

(** * Properties *)

(** ** Python equality *)

Lemma py_eqb_refl v : Py.eqb v v = true.
Proof.
  destruct v as [|b|z|s]; simpl; auto.
  - by destruct b.
  - apply Z.eqb_refl.
  - apply String.eqb_refl.
Qed.

Lemma py_eqb_Str v s : Py.eqb v (Py.Str s) = true ↔ v = Py.Str s.
Proof.
  destruct v as [|a|a|a]; simpl; split; try congruence.
  - by intros ->%String.eqb_eq.
  - intros [= ->]. apply String.eqb_refl.
Qed.

Lemma py_eqb_None_l v : Py.eqb Py.None_ v = Py.is_None v.
Proof. by destruct v. Qed.

(** ** Reading a tab like a dict *)

(** The only exception [self[key]] raises is [KeyError]. *)
Lemma tab_getitem_raises tab key e :
  tab_getitem tab key = Raise e → ∃ json, e = KeyError key json.
Proof.
  unfold tab_getitem, CourseViewTab_getitem, CourseTab_getitem.
  destruct (view tab); repeat case_match; intros [= <-]; eauto.
Qed.

(** So [get] always returns. *)
Lemma CourseTab_get_total tab key default :
  ∃ v, CourseTab_get tab key default = Ok v.
Proof.
  unfold CourseTab_get.
  destruct (tab_getitem tab key) as [v|e] eqn:E; [eauto|].
  apply tab_getitem_raises in E as [json ->]. eauto.
Qed.

Lemma CourseTab_get_type tab default : CourseTab_get tab "type" default = Ok (type tab).
Proof.
  unfold CourseTab_get, tab_getitem, CourseViewTab_getitem, CourseTab_getitem.
  by destruct (view tab).
Qed.

Lemma CourseTab_get_name tab default : CourseTab_get tab "name" default = Ok (name tab).
Proof.
  unfold CourseTab_get, tab_getitem, CourseViewTab_getitem, CourseTab_getitem.
  by destruct (view tab).
Qed.

Lemma tab_getitem_name tab : tab_getitem tab "name" = Ok (name tab).
Proof.
  unfold tab_getitem, CourseViewTab_getitem, CourseTab_getitem.
  by destruct (view tab).
Qed.

(** ** List validation *)

Lemma obj_get_entry_type x : obj_get (entry x) "type" = Ok (entry_type x).
Proof. destruct x as [tab|d]; simpl; [apply CourseTab_get_type|done]. Qed.

Lemma count_tabs_of_type_entries l tab_type :
  CourseTabList.count_tabs_of_type (entry <$> l) tab_type = Ok (occurrences tab_type l).
Proof.
  unfold occurrences.
  induction l as [|x l IH]; [done|].
  rewrite fmap_cons. simpl. rewrite obj_get_entry_type. simpl.
  rewrite IH. simpl. f_equal.
  rewrite filter_cons.
  destruct (Py.eqb (entry_type x) (Py.Str tab_type)) eqn:E.
  - apply py_eqb_Str in E. by rewrite decide_True.
  - rewrite decide_False; [done|]. intros H%py_eqb_Str. congruence.
Qed.

Lemma validate_num_entries l tab_type max_num :
  CourseTabList._validate_num_tabs_of_type (entry <$> l) tab_type max_num =
    if decide (occurrences tab_type l ≤ max_num) then Ok tt
    else Raise (InvalidTabsException
                  (TabTypeAppearsTooOften tab_type (occurrences tab_type l) max_num)).
Proof.
  unfold CourseTabList._validate_num_tabs_of_type.
  rewrite count_tabs_of_type_entries. simpl.
  destruct (Nat.ltb_spec max_num (occurrences tab_type l)); case_decide; done || lia.
Qed.

Lemma for_each_type_spec types body :
  (∀ ty, body ty = Ok tt ∨ ∃ msg, body ty = Raise (InvalidTabsException msg)) →
  (CourseTabList.for_each_type types body = Ok tt ↔ ∀ ty, ty ∈ types → body ty = Ok tt)
  ∧ (CourseTabList.for_each_type types body = Ok tt
     ∨ ∃ msg, CourseTabList.for_each_type types body = Raise (InvalidTabsException msg)).
Proof.
  intros Hbody. induction types as [|ty types [IH1 IH2]]; simpl.
  - split; [|by left]. split; [|done]. by intros _ ty ?%elem_of_nil.
  - destruct (Hbody ty) as [E|[msg E]]; rewrite E; simpl.
    + split; [|done]. rewrite IH1. split.
      * intros H ty' [->|?]%elem_of_cons; auto.
      * intros H ty' ?. apply H. by right.
    + split; [|eauto]. split; [done|].
      intros H. rewrite H in E; [done|]. by left.
Qed.

(** The outcome of [validate_tabs] on a list of tabs or dict-type tabs. *)
Lemma validate_tabs_entries (l : list (Tab + dict)) :
  (CourseTabList.validate_tabs (Some (entry <$> l)) = Ok tt ↔ valid_tab_list l)
  ∧ (CourseTabList.validate_tabs (Some (entry <$> l)) = Ok tt
     ∨ ∃ msg, CourseTabList.validate_tabs (Some (entry <$> l))
              = Raise (InvalidTabsException msg)).
Proof.
  destruct l as [|x [|y l]].
  - split; [|by left]. split; [by left|done].
  - split; [|right; by eexists]. split; [done|].
    intros [?|(Hlen & _)]; [done|]. simpl in Hlen. lia.
  - set (tabs := x :: y :: l).
    assert (Hloop := for_each_type_spec CourseTabList.singleton_types
      (λ tab_type, CourseTabList._validate_num_tabs_of_type (entry <$> tabs) tab_type 1)).
    destruct Hloop as [Hiff Hcases].
    { intros ty. rewrite validate_num_entries. case_decide; eauto. }
    unfold valid_tab_list, CourseTabList.validate_tabs.
    change (length (entry <$> tabs) =? 0) with false.
    change (length (entry <$> tabs) <? 2) with false.
    change ((entry <$> tabs) !! 0) with (Some (entry x)).
    change ((entry <$> tabs) !! 1) with (Some (entry y)).
    change (entry_type <$> tabs !! 0) with (Some (entry_type x)).
    change (entry_type <$> tabs !! 1) with (Some (entry_type y)).
    cbv iota. rewrite !obj_get_entry_type. cbn [rbind].
    destruct (Py.eqb (entry_type x) (Py.Str "courseware")) eqn:E0; cbn [negb].
    2:{ split; [|right; by eexists]. split; [done|].
        intros [?|(_ & [= H0] & _)]; [done|].
        apply py_eqb_Str in H0. congruence. }
    destruct (Py.eqb (entry_type y) (Py.Str "course_info")) eqn:E1; cbn [negb].
    2:{ split; [|right; by eexists]. split; [done|].
        intros [?|(_ & _ & [= H1] & _)]; [done|].
        apply py_eqb_Str in H1. congruence. }
    apply py_eqb_Str in E0, E1. split; [|done].
    rewrite Hiff. split.
    + intros H. right. split; [simpl; lia|]. do 2 (split; [by f_equal|]).
      intros ty Hty. specialize (H ty Hty).
      rewrite validate_num_entries in H. by case_decide.
    + intros [?|(_ & _ & _ & H)]; [done|]. intros ty Hty.
      rewrite validate_num_entries. rewrite decide_True; auto.
Qed.

(** C1.  [validate_tabs] passes on [None] and on the empty list; on any
    other list of tabs or dict-type tabs it passes exactly when the list has
    at least two entries, entry 0 has type ['courseware'], entry 1 has type
    ['course_info'] and no singleton type occurs more than once; whenever it
    does not pass it raises [InvalidTabsException]. *)
Theorem validate_tabs_correct :
  CourseTabList.validate_tabs None = Ok tt
  ∧ CourseTabList.validate_tabs (Some []) = Ok tt
  ∧ ∀ l : list (Tab + dict),
      (CourseTabList.validate_tabs (Some (entry <$> l)) = Ok tt ↔ valid_tab_list l)
      ∧ (CourseTabList.validate_tabs (Some (entry <$> l)) = Ok tt
         ∨ ∃ msg, CourseTabList.validate_tabs (Some (entry <$> l))
                  = Raise (InvalidTabsException msg)).
Proof. split; [done|]. split; [done|]. apply validate_tabs_entries. Qed.

(** ** Equality of tabs *)

Lemma key_checker_one key d raise_error :
  key_checker [key] d raise_error =
    if bool_decide (is_Some (d !! key)) then Ok true
    else if raise_error then
      Raise (InvalidTabsException (ExpectedKeysNotPresent [key] d))
    else Ok false.
Proof.
  unfold key_checker.
  assert ((list_to_set [key] ∖ dom d : gset string) = ∅ ↔ is_Some (d !! key)) as H.
  { rewrite <-elem_of_dom. split.
    - intros H. destruct (decide (key ∈ dom d)) as [|Hn]; [done|].
      assert (key ∈ (list_to_set [key] ∖ dom d : gset string)) as Hin.
      { apply elem_of_difference. split; [|done]. apply elem_of_list_to_set. by left. }
      rewrite H in Hin. by apply not_elem_of_empty in Hin.
    - intros Hin. apply leibniz_equiv, elem_of_equiv_empty. intros k.
      rewrite elem_of_difference, elem_of_list_to_set, list_elem_of_singleton.
      by intros [-> ?]. }
  destruct (decide (is_Some (d !! key))) as [Hs|Hs].
  - rewrite !bool_decide_eq_true_2; tauto.
  - rewrite !bool_decide_eq_false_2; tauto.
Qed.

Lemma CourseTab_eq_equal_to self other :
  CourseTab_eq self (entry other) = Ok (equal_to self other).
Proof.
  unfold CourseTab_eq, equal_to. destruct other as [tab|d]; simpl.
  - rewrite CourseTab_get_name, CourseTab_get_type. simpl.
    destruct (Py.is_None (name tab)) eqn:E; simpl; [done|].
    by rewrite tab_getitem_name.
  - unfold CourseTab_validate. rewrite key_checker_one.
    case_bool_decide; simpl; [|done].
    unfold dict_get.
    destruct (d !! "name") as [v|] eqn:E; simpl; [|done].
    by destruct (Py.is_None v).
Qed.

(** C8, as stated, fails: with the name absent on the left-hand side only,
    the data model calls the two equal and [__eq__] answers [False]. *)
Lemma eq_name_absent_on_self :
  valid_entry (inr wiki_record) = true
  ∧ name nameless_wiki = Py.None_
  ∧ equal_either_side nameless_wiki (inr wiki_record) = true
  ∧ CourseTab_eq nameless_wiki (DictObj wiki_record) = Ok false.
Proof. by vm_compute. Qed.

(** C8, amended.  For a tab [self] and another tab or plain record [other],
    [self == other] never raises and holds exactly when [other] is valid, the
    ['type'] values match, and [other]'s ['name'] is absent ([None]) or the
    two names match; the answer depends on [self] and on another tab only
    through [type] and [name] (not [tab_id], not [is_hidden]); and
    [self != other] is its negation. *)
Theorem CourseTab_eq_correct (self : Tab) (other : Tab + dict) :
  (∃ b, CourseTab_eq self (entry other) = Ok b
        ∧ CourseTab_ne self (entry other) = Ok (negb b)
        ∧ (b = true ↔
             valid_entry other = true
             ∧ Py.eqb (type self) (entry_type other) = true
             ∧ (entry_name other = Py.None_
                ∨ Py.eqb (name self) (entry_name other) = true)))
  ∧ (∀ self', type self' = type self → name self' = name self →
       CourseTab_eq self' (entry other) = CourseTab_eq self (entry other))
  ∧ (∀ tab tab', type tab' = type tab → name tab' = name tab →
       CourseTab_eq self (TabObj tab') = CourseTab_eq self (TabObj tab)).
Proof.
  split; [|split].
  - exists (equal_to self other). unfold CourseTab_ne.
    rewrite CourseTab_eq_equal_to. do 2 (split; [done|]).
    unfold equal_to. rewrite !andb_true_iff, orb_true_iff.
    assert (Py.is_None (entry_name other) = true ↔ entry_name other = Py.None_) as ->.
    { by destruct (entry_name other). }
    tauto.
  - intros self' Ht Hn. rewrite !CourseTab_eq_equal_to.
    unfold equal_to. by rewrite Ht, Hn.
  - intros tab tab' Ht Hn.
    change (TabObj tab') with (entry (inl tab')).
    change (TabObj tab) with (entry (inl tab)).
    rewrite !CourseTab_eq_equal_to.
    unfold equal_to. simpl. by rewrite Ht, Hn.
Qed.

(** ** Lookup by slug *)

(** No tab class of the module has a ['url_slug'] key. *)
Lemma tab_getitem_url_slug tab :
  ∃ json, tab_getitem tab "url_slug" = Raise (KeyError "url_slug" json).
Proof.
  unfold tab_getitem, CourseViewTab_getitem, CourseTab_getitem.
  destruct (view tab); simpl; eauto.
Qed.

Lemma CourseTab_get_url_slug tab default :
  CourseTab_get tab "url_slug" default = Ok default.
Proof.
  unfold CourseTab_get. by destruct (tab_getitem_url_slug tab) as [json ->].
Qed.

(** C10.  On tabs of the classes defined in the module, [get_tab_by_slug]
    never raises: every tab's [get('url_slug')] is the default [None], so a
    slug other than [None] is not found, and the slug [None] finds the first
    tab of a non-empty list (and nothing in the empty one). *)
Theorem get_tab_by_slug_correct :
  (∀ tab, CourseTab_get tab "url_slug" Py.None_ = Ok Py.None_)
  ∧ (∀ tab_list url_slug,
       ∃ found, CourseTabList.get_tab_by_slug tab_list url_slug = Ok found)
  ∧ (∀ tab_list url_slug,
       url_slug ≠ Py.None_ →
       CourseTabList.get_tab_by_slug tab_list url_slug = Ok None)
  ∧ (∀ tab rest,
       CourseTabList.get_tab_by_slug (tab :: rest) Py.None_ = Ok (Some tab))
  ∧ CourseTabList.get_tab_by_slug [] Py.None_ = Ok None.
Proof.
  assert (∀ tab_list url_slug,
    CourseTabList.get_tab_by_slug tab_list url_slug =
      Ok (if Py.is_None url_slug then head tab_list else None)) as Hspec.
  { intros tab_list url_slug. unfold CourseTabList.get_tab_by_slug.
    induction tab_list as [|tab rest IH]; simpl.
    - by destruct (Py.is_None url_slug).
    - rewrite CourseTab_get_url_slug. cbn [rbind]. rewrite py_eqb_None_l.
      destruct (Py.is_None url_slug); [done|]. exact IH. }
  split; [intros; apply CourseTab_get_url_slug|].
  split; [intros; eexists; apply Hspec|].
  split; [|split; [intros; exact (Hspec _ _)|exact (Hspec _ _)]].
  intros tab_list url_slug Hslug. rewrite Hspec. by destruct url_slug.
Qed.

(** ** Displayable tabs *)

Section displayable.
Context {Settings User : Type} (R : Registry Settings User).
Context (course : Course) (settings : Settings).

Lemma iterate_displayable_unfold user inline_collections :
  CourseTabList.iterate_displayable R course settings user inline_collections =
    flat_map (yielded_for R course inline_collections)
      (List.filter (passes R course settings user) (tabs course)).
Proof.
  unfold CourseTabList.iterate_displayable.
  induction (tabs course) as [|tab rest IH]; [done|].
  rewrite IH. clear IH. cbn [List.filter].
  assert (passes R course settings user tab =
    tab_is_enabled R tab course settings user
    && (negb (bool_decide (is_Some user))
        || match view tab with
           | Some v => negb (is_hideable_attr v) || negb (Py.truthy (is_hidden v))
           | None => true
           end)) as <-.
  { unfold passes, is_hideable, hidden.
    destruct (tab_is_enabled R tab course settings user), (bool_decide (is_Some user));
      try done; simpl.
    destruct (view tab) as [v|]; [|done].
    by destruct (is_hideable_attr v). }
  destruct (passes R course settings user tab); [|done].
  cbn [flat_map]. f_equal.
  unfold yielded_for, is_collection, items. destruct (view tab) as [v|]; [|done].
  destruct (is_collection_attr v); [|done].
  destruct inline_collections; [done|].
  destruct (CourseViewTab_items R v course); by simpl.
Qed.

Lemma passes_iff user tab :
  passes R course settings user tab = true ↔
    tab_is_enabled R tab course settings user = true
    ∧ (user = None ∨ is_hideable tab = false ∨ hidden tab = false).
Proof.
  unfold passes. rewrite andb_true_iff, !orb_true_iff, !negb_true_iff.
  rewrite bool_decide_eq_false.
  assert (¬ is_Some user ↔ user = None) as ->; [|tauto].
  destruct user as [u|]; split; try done.
  intros H. destruct H. by exists u.
Qed.

(** C3, amended.  [iterate_displayable] selects a stored tab exactly when
    [is_enabled] holds for it and no user is supplied, or the tab is not
    hideable, or its [is_hidden] flag is false: the output is made, in stored
    order, of what is yielded for the selected tabs and for no others.  A
    selected tab that is not a collection is yielded itself, so such a stored
    tab is included when it is selected, and on a list without collection
    tabs the output is exactly the selected tabs.  In particular a hidden
    hideable tab is not selected when a user is supplied, and an enabled one
    is selected when no user is supplied. *)
Theorem iterate_displayable_selects (user : option User) (inline_collections : bool) :
  CourseTabList.iterate_displayable R course settings user inline_collections =
    flat_map (yielded_for R course inline_collections)
      (List.filter (passes R course settings user) (tabs course))
  ∧ (∀ tab, passes R course settings user tab = true ↔
       tab_is_enabled R tab course settings user = true
       ∧ (user = None ∨ is_hideable tab = false ∨ hidden tab = false))
  ∧ (∀ tab, In tab (tabs course) → is_collection tab = false →
       passes R course settings user tab = true →
       In tab (CourseTabList.iterate_displayable R course settings user inline_collections))
  ∧ (∀ tab,
       In tab (CourseTabList.iterate_displayable R course settings user inline_collections) →
       ∃ stored, In stored (tabs course)
                 ∧ passes R course settings user stored = true
                 ∧ In tab (yielded_for R course inline_collections stored))
  ∧ (Forall (λ tab, is_collection tab = false) (tabs course) →
       CourseTabList.iterate_displayable R course settings user inline_collections =
         List.filter (passes R course settings user) (tabs course))
  ∧ (∀ tab u, is_hideable tab = true → hidden tab = true →
       passes R course settings (Some u) tab = false)
  ∧ (∀ tab, tab_is_enabled R tab course settings None = true →
       passes R course settings None tab = true).
Proof.
  split; [apply iterate_displayable_unfold|].
  split; [apply passes_iff|].
  assert (∀ tab, is_collection tab = false →
            yielded_for R course inline_collections tab = [tab]) as Hleaf.
  { intros tab H. unfold yielded_for. by rewrite H. }
  rewrite !iterate_displayable_unfold. split; [|split; [|split; [|split]]].
  - intros tab Hin Hleaf_tab Hpasses. apply in_flat_map. exists tab.
    rewrite filter_In, Hleaf by done. split; [done|by left].
  - intros tab (stored & [Hin Hp]%filter_In & Hy)%in_flat_map. by exists stored.
  - intros Hall.
    induction Hall as [|tab rest Htab _ IH]; [done|]. cbn [List.filter].
    destruct (passes R course settings user tab); [|done].
    cbn [flat_map]. by rewrite Hleaf, IH.
  - intros tab u Hh Hd. unfold passes. rewrite Hh, Hd.
    rewrite bool_decide_eq_true_2 by eauto. apply andb_false_r.
  - intros tab He. unfold passes. rewrite He.
    rewrite bool_decide_eq_false_2; [done|]. by intros [? [=]].
Qed.

(** C4, amended.  With [inline_collections=True] every selected collection
    tab is replaced by its items, in the items' own order, so a tab with
    [is_collection] true is yielded only as an item of a stored collection
    tab (items are yielded unexamined); with [inline_collections=False] no
    collection tab whose [items(course)] is empty is yielded. *)
Theorem iterate_displayable_collections (user : option User) :
  CourseTabList.iterate_displayable R course settings user true =
    flat_map (λ tab, if is_collection tab then items R course tab else [tab])
      (List.filter (passes R course settings user) (tabs course))
  ∧ (∀ tab, In tab (CourseTabList.iterate_displayable R course settings user true) →
       is_collection tab = true →
       ∃ stored, In stored (tabs course)
                 ∧ passes R course settings user stored = true
                 ∧ is_collection stored = true
                 ∧ In tab (items R course stored))
  ∧ (∀ tab, In tab (CourseTabList.iterate_displayable R course settings user false) →
       is_collection tab = true → items R course tab ≠ []).
Proof.
  rewrite !iterate_displayable_unfold. split; [done|]. split.
  - intros tab (stored & [Hin Hp]%filter_In & Hy)%in_flat_map Hc.
    exists stored. unfold yielded_for in Hy.
    destruct (is_collection stored) eqn:Hs; [done|].
    apply list_elem_of_In, list_elem_of_singleton in Hy. congruence.
  - intros tab (stored & [Hin Hp]%filter_In & Hy)%in_flat_map Hc.
    unfold yielded_for in Hy. destruct (is_collection stored) eqn:Hs.
    + case_bool_decide as Hi; [done|].
      apply list_elem_of_In, list_elem_of_singleton in Hy. by subst.
    + apply list_elem_of_In, list_elem_of_singleton in Hy. congruence.
Qed.

End displayable.

(** C3, as stated, fails on a collection tab: the stored Textbooks tab is
    enabled and no user is supplied, yet the output holds its two books and
    not the tab itself. *)
Lemma iterate_displayable_omits_selected_collection :
  In Bookish.shelf (tabs Bookish.course)
  ∧ tab_is_enabled Builtin.registry Bookish.shelf Bookish.course ∅ None = true
  ∧ CourseTabList.iterate_displayable Builtin.registry Bookish.course ∅ None true
      = [CourseViewTab_init Builtin.courseware None;
         CourseViewTab_init Builtin.course_info None;
         Builtin.single_textbook "Book0" "0"; Builtin.single_textbook "Book1" "1"]
  ∧ ¬ In Bookish.shelf
        (CourseTabList.iterate_displayable Builtin.registry Bookish.course ∅ None true).
Proof.
  split; [right; right; by left|]. split; [done|].
  assert (CourseTabList.iterate_displayable Builtin.registry Bookish.course ∅ None true
      = [CourseViewTab_init Builtin.courseware None;
         CourseViewTab_init Builtin.course_info None;
         Builtin.single_textbook "Book0" "0"; Builtin.single_textbook "Book1" "1"]) as ->.
  { by vm_compute. }
  split; [done|]. intros [H|[H|[H|[H|[]]]]]; discriminate H.
Qed.

(** C4, as stated, fails: nothing examines the items of a collection tab, so
    with [inline_collections=True] an item that is itself a collection tab
    is yielded. *)
Lemma iterate_displayable_yields_nested_collection :
  CourseTabList.iterate_displayable Nested.registry Nested.course ∅ None true
    = [Nested.shelf]
  ∧ is_collection Nested.shelf = true.
Proof. by vm_compute. Qed.

(** ** Deserializing one record *)

Section from_json.
Context {Settings User : Type} (R : Registry Settings User).

Lemma CourseTab_from_json_unknown tab_dict log :
  get_plugin R (record_type tab_dict) = None →
  CourseTab_from_json R tab_dict log =
    (Ok None, log ++ [UnknownTabType (record_type tab_dict) (get_course_view_types R)]).
Proof. unfold CourseTab_from_json, record_type. by intros ->. Qed.

Lemma CourseTab_from_json_known tab_dict tab_type log :
  get_plugin R (record_type tab_dict) = Some tab_type →
  CourseTab_from_json R tab_dict log =
    (rbind (construct R tab_type tab_dict) (λ tab, Ok (Some tab)), log).
Proof.
  unfold CourseTab_from_json, record_type, construct. intros ->.
  unfold bind, lift, ret.
  destruct (tab_type_validate R tab_type tab_dict) as [b|e]; [|done].
  destruct tab_type as [cvt|cls]; [done|]. simpl.
  by destruct (tab_class_new R cls tab_dict).
Qed.

Lemma known_records_cons tab_dict rest :
  known_records R (tab_dict :: rest) =
    match get_plugin R (record_type tab_dict) with
    | Some tab_type => (tab_type, tab_dict) :: known_records R rest
    | None => known_records R rest
    end.
Proof. unfold known_records. simpl. by destruct (get_plugin R (record_type tab_dict)). Qed.

Lemma from_json_loop_known values tabs log :
  (CourseTabList.from_json_loop R values tabs log).1 =
    rbind (construct_all R (known_records R values)) (λ new_tabs, Ok (tabs ++ new_tabs)).
Proof.
  revert tabs log. induction values as [|tab_dict rest IH]; intros tabs log.
  { simpl. by rewrite app_nil_r. }
  cbn [CourseTabList.from_json_loop]. unfold bind. rewrite known_records_cons.
  destruct (get_plugin R (record_type tab_dict)) as [tab_type|] eqn:E.
  - rewrite (CourseTab_from_json_known _ tab_type) by done.
    cbn [construct_all].
    destruct (construct R tab_type tab_dict) as [tab|e]; [|done]. cbn [rbind].
    rewrite IH.
    destruct (construct_all R (known_records R rest)); [|done].
    simpl. by rewrite <-app_assoc.
  - rewrite CourseTab_from_json_unknown by done. apply IH.
Qed.

End from_json.

(** ** Deserializing a list *)

Section list_from_json.
Context {Settings User : Type} (R : Registry Settings User).

Lemma deserializes_to_construct tab_dict tab_type tab :
  get_plugin R (record_type tab_dict) = Some tab_type →
  deserializes_to R tab_dict tab ↔ construct R tab_type tab_dict = Ok tab.
Proof.
  intros E. unfold deserializes_to. split.
  - intros H. specialize (H []). rewrite (CourseTab_from_json_known _ _ tab_type) in H by done.
    destruct (construct R tab_type tab_dict); simpl in H; congruence.
  - intros H log. rewrite (CourseTab_from_json_known _ _ tab_type) by done. by rewrite H.
Qed.

Lemma construct_all_known values tabs :
  construct_all R (known_records R values) = Ok tabs ↔
    Forall2 (deserializes_to R) (known R values) tabs.
Proof.
  revert tabs. induction values as [|tab_dict rest IH]; intros tabs.
  { simpl. split; [by intros [= <-]; constructor|by intros ->%Forall2_nil_inv_l]. }
  rewrite known_records_cons. unfold known. rewrite filter_cons. fold (known R rest).
  destruct (get_plugin R (record_type tab_dict)) as [tab_type|] eqn:E.
  - rewrite decide_True by eauto. cbn [construct_all]. split.
    + destruct (construct R tab_type tab_dict) as [tab|] eqn:Ec; [|done]. cbn [rbind].
      destruct (construct_all R (known_records R rest)) as [tabs'|] eqn:Er; [|done].
      intros [= <-]. constructor; [by eapply deserializes_to_construct|by apply IH].
    + intros (tab & tabs' & Hd & Hr & ->)%Forall2_cons_inv_l.
      eapply deserializes_to_construct in Hd; [|done]. rewrite Hd. cbn [rbind].
      apply IH in Hr. by rewrite Hr.
  - rewrite decide_False; [apply IH|]. by intros [? [=]].
Qed.

Lemma from_json_valid values log :
  CourseTabList.validate_tabs (Some (DictObj <$> values)) = Ok tt →
  (CourseTabList.from_json R (Some values) log).1 =
    construct_all R (known_records R values).
Proof.
  intros Hvalid. unfold CourseTabList.from_json, bind, lift. cbn [option_map].
  change (map DictObj values) with (DictObj <$> values). rewrite Hvalid.
  rewrite from_json_loop_known. by destruct (construct_all R (known_records R values)).
Qed.

(** C6.  A record whose ['type'] is not registered makes
    [CourseTab.from_json] write a log line and return [None] without
    raising; [CourseTabList.from_json], on a structurally valid list, goes
    through the records of registered type only: it returns tabs exactly
    when they are, in order, what those records deserialize to, and
    otherwise raises what the first failing one of them raises. *)
Theorem from_json_skips_unknown :
  (∀ tab_dict log,
     get_plugin R (record_type tab_dict) = None →
     CourseTab_from_json R tab_dict log =
       (Ok None, log ++ [UnknownTabType (record_type tab_dict) (get_course_view_types R)]))
  ∧ (∀ values log,
       CourseTabList.validate_tabs (Some (DictObj <$> values)) = Ok tt →
       (CourseTabList.from_json R (Some values) log).1 =
         construct_all R (known_records R values))
  ∧ (∀ values log tabs,
       CourseTabList.validate_tabs (Some (DictObj <$> values)) = Ok tt →
       ((CourseTabList.from_json R (Some values) log).1 = Ok tabs ↔
          Forall2 (deserializes_to R) (known R values) tabs)).
Proof.
  split; [apply CourseTab_from_json_unknown|]. split; [apply from_json_valid|].
  intros values log tabs Hvalid. rewrite from_json_valid by done.
  apply construct_all_known.
Qed.

(** C7.  When the records violate the structural invariants of the list,
    [CourseTabList.from_json] raises the [InvalidTabsException] of
    [validate_tabs] and nothing else happens: whatever the registered
    classes are, none is looked up, no tab is constructed and the log is
    left as it was. *)
Theorem from_json_validates_first (values : list dict) (log : Log) (e : exn) :
  CourseTabList.validate_tabs (Some (DictObj <$> values)) = Raise e →
  CourseTabList.from_json R (Some values) log = (Raise e, log)
  ∧ ∃ msg, e = InvalidTabsException msg.
Proof.
  intros Hinvalid. split.
  - unfold CourseTabList.from_json, bind, lift. cbn [option_map].
    change (map DictObj values) with (DictObj <$> values). by rewrite Hinvalid.
  - assert (DictObj <$> values = entry <$> (inr <$> values)) as Heq.
    { by rewrite <-list_fmap_compose. }
    rewrite Heq in Hinvalid.
    destruct (validate_tabs_entries (inr <$> values)) as [_ [H|[msg H]]];
      rewrite H in Hinvalid; [done|]. exists msg. congruence.
Qed.

End list_from_json.

(** ** Serializing and deserializing *)

Lemma tab_to_json_type tab : tab_to_json tab !! "type" = Some (type tab).
Proof.
  unfold tab_to_json, CourseViewTab_to_json, CourseTab_to_json.
  destruct (view tab) as [v|]; [destruct (Py.truthy (is_hidden v))|]; reflexivity.
Qed.

Lemma tab_to_json_name tab : tab_to_json tab !! "name" = Some (name tab).
Proof.
  unfold tab_to_json, CourseViewTab_to_json, CourseTab_to_json.
  destruct (view tab) as [v|]; [destruct (Py.truthy (is_hidden v))|]; reflexivity.
Qed.

(** [is_hidden] is written only when it is set. *)
Lemma tab_to_json_is_hidden tab :
  tab_to_json tab !! "is_hidden" = if hidden tab then Some (Py.Bool true) else None.
Proof.
  unfold tab_to_json, CourseViewTab_to_json, CourseTab_to_json, hidden.
  destruct (view tab) as [v|]; [destruct (Py.truthy (is_hidden v))|]; reflexivity.
Qed.

Lemma tab_to_json_nonempty tab : tab_to_json tab ≠ ∅.
Proof.
  intros H. pose proof (tab_to_json_type tab) as Ht. by rewrite H in Ht.
Qed.

Lemma to_json_tabs (tabs : list Tab) :
  CourseTabList.to_json (Some (TabObj <$> tabs)) = tab_to_json <$> tabs.
Proof.
  assert (∀ json_data,
    CourseTabList.to_json_loop (TabObj <$> tabs) json_data
      = json_data ++ (tab_to_json <$> tabs)) as Hloop.
  { induction tabs as [|tab rest IH]; intros json_data; simpl.
    - by rewrite app_nil_r.
    - rewrite IH. by rewrite <-app_assoc. }
  destruct tabs as [|tab rest]; [done|].
  unfold CourseTabList.to_json. rewrite fmap_cons. apply (Hloop []).
Qed.

Lemma occurrences_types tab_type (l l' : list (Tab + dict)) :
  entry_type <$> l = entry_type <$> l' → occurrences tab_type l = occurrences tab_type l'.
Proof.
  unfold occurrences. revert l'. induction l as [|x l IH]; intros [|x' l']; try done.
  rewrite !fmap_cons. intros [= Hx Hl]. rewrite !filter_cons, Hx.
  case_decide; simpl; auto.
Qed.

(** Validity of a list depends on the types of its entries only. *)
Lemma valid_tab_list_types (l l' : list (Tab + dict)) :
  entry_type <$> l = entry_type <$> l' → valid_tab_list l → valid_tab_list l'.
Proof.
  intros Htypes [->|(Hlen & H0 & H1 & Hocc)].
  - left. symmetry in Htypes. by apply fmap_nil_inv in Htypes.
  - right. rewrite <-!list_lookup_fmap in *. rewrite <-Htypes.
    split; [|split; [done|split; [done|]]].
    + by rewrite <-(length_fmap entry_type l'), <-Htypes, length_fmap.
    + intros ty Hty. rewrite <-(occurrences_types ty l l') by done. auto.
Qed.

Lemma validate_tabs_to_json (tabs : list Tab) :
  CourseTabList.validate_tabs (Some (TabObj <$> tabs)) = Ok tt →
  CourseTabList.validate_tabs (Some (DictObj <$> (tab_to_json <$> tabs))) = Ok tt.
Proof.
  assert (TabObj <$> tabs = entry <$> (inl <$> tabs)) as ->.
  { by rewrite <-list_fmap_compose. }
  assert (DictObj <$> (tab_to_json <$> tabs) = entry <$> (inr ∘ tab_to_json <$> tabs)) as ->.
  { by rewrite <-!list_fmap_compose. }
  rewrite !(proj1 (validate_tabs_entries _)). apply valid_tab_list_types.
  rewrite <-!list_fmap_compose. apply list_fmap_ext. intros _ tab _. simpl.
  unfold dict_get. by rewrite tab_to_json_type.
Qed.

Section round_trip.
Context {Settings User : Type} (R : Registry Settings User).

Lemma record_type_to_json tab : record_type (tab_to_json tab) = type tab.
Proof. unfold record_type, dict_get. by rewrite tab_to_json_type. Qed.

Lemma round_trip_one tab :
  known_valid R tab →
  ∃ tab', deserializes_to R (tab_to_json tab) tab'
          ∧ type tab' = type tab ∧ name tab' = name tab
          ∧ (view_registered R tab → hidden tab' = hidden tab).
Proof.
  unfold known_valid, view_registered.
  destruct (get_plugin R (type tab)) as [[cvt|cls]|] eqn:E; [| |done].
  - intros [Hname [ok Hok]].
    exists (CourseViewTab_init cvt (Some (tab_to_json tab))). split; [|split; [done|split]].
    + eapply deserializes_to_construct; [by rewrite record_type_to_json|].
      unfold construct. simpl. by rewrite Hok.
    + simpl. rewrite bool_decide_eq_false_2 by apply tab_to_json_nonempty.
      unfold dict_get. by rewrite tab_to_json_name.
    + intros _. unfold hidden at 1. simpl.
      rewrite bool_decide_eq_false_2 by apply tab_to_json_nonempty.
      unfold dict_get. rewrite tab_to_json_is_hidden. by destruct (hidden tab).
  - intros [[ok Hok] (tab' & Hnew & Htype & Hname)].
    exists tab'. split; [|split; [done|split; [done|]]].
    + eapply deserializes_to_construct; [by rewrite record_type_to_json|].
      unfold construct. simpl. by rewrite Hok.
    + by intros [? [=]].
Qed.

Lemma from_json_loop_deserialized values new_tabs tabs log :
  Forall2 (deserializes_to R) values new_tabs →
  CourseTabList.from_json_loop R values tabs log = (Ok (tabs ++ new_tabs), log).
Proof.
  intros H. revert tabs. induction H as [|tab_dict tab values new_tabs Hd _ IH]; intros tabs.
  { simpl. by rewrite app_nil_r. }
  cbn [CourseTabList.from_json_loop]. unfold bind. rewrite Hd, IH.
  by rewrite <-app_assoc.
Qed.

(** C2.  For a structurally valid list of tabs of known, valid types,
    [from_json(to_json(tabs))] succeeds, writes nothing to the log, and
    returns a list equal to [tabs] element by element under [__eq__] (in
    both directions); [to_json] writes [is_hidden] only when it is set, and a
    tab rebuilt by [CourseViewTab] has the flag it had. *)
Theorem from_json_to_json (tabs : list Tab) (log : Log) :
  CourseTabList.validate_tabs (Some (TabObj <$> tabs)) = Ok tt →
  Forall (known_valid R) tabs →
  ∃ tabs',
    CourseTabList.from_json R (Some (CourseTabList.to_json (Some (TabObj <$> tabs)))) log
      = (Ok tabs', log)
    ∧ Forall2 (λ tab' tab, CourseTab_eq tab' (TabObj tab) = Ok true
                           ∧ CourseTab_eq tab (TabObj tab') = Ok true) tabs' tabs
    ∧ Forall2 (λ tab' tab, view_registered R tab → hidden tab' = hidden tab) tabs' tabs
    ∧ Forall (λ tab, tab_to_json tab !! "is_hidden"
                       = if hidden tab then Some (Py.Bool true) else None) tabs.
Proof.
  intros Hvalid Hknown.
  assert (∃ tabs', Forall2 (deserializes_to R) (tab_to_json <$> tabs) tabs'
                   ∧ Forall2 (λ tab' tab, type tab' = type tab ∧ name tab' = name tab
                                ∧ (view_registered R tab → hidden tab' = hidden tab))
                       tabs' tabs) as (tabs' & Hd & Hsame).
  { clear Hvalid. induction Hknown as [|tab rest Htab _ (tabs' & Hd & Hsame)].
    - exists []. split; constructor.
    - destruct (round_trip_one tab Htab) as (tab' & ? & ? & ? & ?).
      exists (tab' :: tabs'). rewrite fmap_cons. split; by constructor. }
  exists tabs'. split; [|split; [|split]].
  - rewrite to_json_tabs. unfold CourseTabList.from_json, bind, lift. cbn [option_map].
    change (map DictObj (tab_to_json <$> tabs)) with (DictObj <$> (tab_to_json <$> tabs)).
    rewrite validate_tabs_to_json by done.
    by rewrite (from_json_loop_deserialized _ tabs').
  - eapply Forall2_impl; [exact Hsame|]. intros tab' tab (Ht & Hn & _).
    change (TabObj tab) with (entry (inl tab)). change (TabObj tab') with (entry (inl tab')).
    rewrite !CourseTab_eq_equal_to. unfold equal_to. simpl.
    by rewrite Ht, Hn, !py_eqb_refl, !orb_true_r.
  - eapply Forall2_impl; [exact Hsame|]. by intros tab' tab (_ & _ & ?).
  - apply Forall_forall. intros tab _. apply tab_to_json_is_hidden.
Qed.

End round_trip.

(** ** The discussion tab *)

Section get_discussion.
Context {Settings User : Type} (R : Registry Settings User).

(** C5.  When the course's [discussion_link] is non-empty, [get_discussion]
    returns the External Discussion tab built from that link, whose resolved
    link is the [discussion_link] value, whatever tabs the course stores;
    when it is empty, [get_discussion] returns the first stored tab of type
    ['discussion'] or ['external_discussion'], or [None] when there is none. *)
Theorem get_discussion_correct (course : Course) (log : Log) :
  (Py.truthy (discussion_link course) = true →
   ∀ tab, external_discussion_tab R (discussion_link course) tab →
     (∀ stored, CourseTabList.get_discussion R (with_tabs course stored) log
                = (Ok (Some tab), log))
     ∧ CourseTabList.get_discussion R course log = (Ok (Some tab), log)
     ∧ ∀ reverse_url_func,
         call_link_func (link_func tab) (course_id_string course) reverse_url_func
         = discussion_link course)
  ∧ (Py.truthy (discussion_link course) = false →
     CourseTabList.get_discussion R course log
       = (Ok (List.find is_discussion_tab (tabs course)), log)
     ∧ (List.find is_discussion_tab (tabs course) = None ↔
          ∀ tab, In tab (tabs course) → is_discussion_tab tab = false)
     ∧ (∀ tab, List.find is_discussion_tab (tabs course) = Some tab →
          ∃ before after,
            tabs course = before ++ tab :: after
            ∧ is_discussion_tab tab = true
            ∧ ∀ other, In other before → is_discussion_tab other = false)).
Proof.
  split.
  - intros Hlink tab (Hd & Htype & Hfunc).
    unfold CourseTabList.get_discussion. simpl. rewrite Hlink.
    split; [|split].
    + intros stored. apply Hd.
    + apply Hd.
    + intros reverse_url_func. by rewrite Hfunc.
  - intros Hlink. unfold CourseTabList.get_discussion. rewrite Hlink. split.
    + reflexivity.
    + split; [split|].
      * intros H tab Hin. by eapply find_none in H.
      * intros H. destruct (List.find is_discussion_tab (tabs course)) as [tab|] eqn:E; [|done].
        apply find_some in E as [Hin Hd]. rewrite H in Hd; done.
      * intros tab. induction (tabs course) as [|first rest IH]; [done|]. simpl.
        destruct (is_discussion_tab first) eqn:E.
        -- intros [= ->]. by exists [], rest.
        -- intros (before & after & -> & Hd & Hbefore)%IH.
           exists (first :: before), after. do 2 (split; [done|]).
           intros other [<-|Hin]; auto.
Qed.

End get_discussion.

(** ** The default tabs *)

Section initialize_default.
Context {Settings User : Type} (R : Registry Settings User).

Lemma with_log_deserializes tab_dict tab (s : CourseTabList.InitState) :
  deserializes_to R tab_dict tab →
  CourseTabList.with_log (CourseTab_from_json R tab_dict) s =
    (Ok (Some tab),
     {| CourseTabList.course_tabs := CourseTabList.course_tabs s;
        CourseTabList.log := CourseTabList.log s |}).
Proof. intros H. unfold CourseTabList.with_log. by rewrite H. Qed.

Lemma validate_tabs_by_types (tabs : list Tab) (types : list string) :
  type <$> tabs = Py.Str <$> types →
  CourseTabList.validate_tabs
    (Some (DictObj <$> ((λ ty, {[ "type" := Py.Str ty ]}) <$> types))) = Ok tt →
  CourseTabList.validate_tabs (Some (TabObj <$> tabs)) = Ok tt.
Proof.
  intros Htypes.
  assert (TabObj <$> tabs = entry <$> (inl <$> tabs)) as ->.
  { by rewrite <-list_fmap_compose. }
  assert (DictObj <$> ((λ ty, {[ "type" := Py.Str ty ]}) <$> types)
          = entry <$> ((λ ty, inr {[ "type" := Py.Str ty ]}) <$> types)) as ->.
  { by rewrite <-!list_fmap_compose. }
  rewrite !(proj1 (validate_tabs_entries _)). apply valid_tab_list_types.
  revert types Htypes. induction tabs as [|tab tabs IH]; intros [|ty types]; try done.
  rewrite !fmap_cons. intros [= Htab Hrest]. f_equal; [|by apply IH].
  simpl. unfold dict_get. by rewrite lookup_singleton_eq.
Qed.

Lemma record_type_titled tab_type title : record_type (titled tab_type title) = Py.Str tab_type.
Proof. unfold record_type, titled, dict_get. by rewrite lookup_insert_eq. Qed.

(** One [CourseTab.from_json] call of [initialize_default] on a registered
    record. *)
Ltac run_from_json :=
  match goal with
  | H : deserializes_to _ ?d _
    |- context [CourseTabList.with_log (CourseTab_from_json _ ?d) _] =>
      rewrite (with_log_deserializes _ _ _ H);
      cbv beta iota; cbn [CourseTabList.course_tabs CourseTabList.log]
  end.

(** C9.  When every built-in tab type is registered, [initialize_default]
    appends to [course.tabs] tabs of types Courseware, Course Info, Syllabus
    (only when the course declares a syllabus), Textbooks, External
    Discussion (when the course has a discussion link, Discussion otherwise),
    Wiki and Progress, in that order, writes nothing to the log, and the
    appended list satisfies [validate_tabs]. *)
Theorem initialize_default_valid (course : Course) (s : CourseTabList.InitState) :
  Forall (registered R) (builtin_records course) →
  ∃ new_tabs,
    CourseTabList.initialize_default R course s =
      (Ok tt,
       {| CourseTabList.course_tabs := CourseTabList.course_tabs s ++ (Some <$> new_tabs);
          CourseTabList.log := CourseTabList.log s |})
    ∧ type <$> new_tabs = Py.Str <$> default_types course
    ∧ CourseTabList.validate_tabs (Some (TabObj <$> new_tabs)) = Ok tt.
Proof.
  unfold builtin_records. rewrite !Forall_cons.
  intros ((courseware & Hcourseware & Tcourseware) & (course_info & Hcourse_info & Tcourse_info)
          & (syllabus & Hsyllabus & Tsyllabus) & (external & Hexternal & Texternal)
          & (discussion & Hdiscussion & Tdiscussion) & (textbooks & Htextbooks & Ttextbooks)
          & (wiki & Hwiki & Twiki) & (progress & Hprogress & Tprogress) & _).
  rewrite record_type_titled in Tcourseware, Tcourse_info, Tsyllabus, Tdiscussion,
    Ttextbooks, Twiki, Tprogress.
  change (record_type _) with (Py.Str "external_discussion") in Texternal.
  unfold titled in *. unfold external_discussion_record in *.
  set (new_tabs := [courseware; course_info]
          ++ (if declares_syllabus course then [syllabus] else [])
          ++ [textbooks; if Py.truthy (discussion_link course) then external else discussion;
              wiki; progress]).
  assert (type <$> new_tabs = Py.Str <$> default_types course) as Htypes.
  { unfold new_tabs, default_types.
    destruct (declares_syllabus course), (Py.truthy (discussion_link course)); simpl;
      by rewrite Tcourseware, Tcourse_info, ?Tsyllabus, Ttextbooks, ?Texternal,
           ?Tdiscussion, Twiki, Tprogress. }
  exists new_tabs. split; [|split; [done|]].
  - unfold new_tabs, CourseTabList.initialize_default, declares_syllabus.
    unfold bind, CourseTabList.extend, ret.
    do 2 run_from_json.
    destruct (syllabus_present course) as [present|]; [destruct (Py.truthy present)|];
      destruct (Py.truthy (discussion_link course));
      repeat run_from_json; by rewrite <-?app_assoc.
  - apply (validate_tabs_by_types _ (default_types course)); [done|].
    unfold default_types.
    by destruct (declares_syllabus course), (Py.truthy (discussion_link course)).
Qed.

End initialize_default.

(** ** The properties on the toy course *)

(** The minimal valid list, and the same list in the wrong order. *)
Example validate_minimal_list :
  CourseTabList.validate_tabs
    (Some (DictObj <$> [titled "courseware" "Courseware"; titled "course_info" "Course Info"]))
  = Ok tt.
Proof. reflexivity. Qed.

Example validate_swapped_list :
  CourseTabList.validate_tabs (Some (DictObj <$> swapped_records))
  = Raise (InvalidTabsException ExpectedFirstTabCourseware).
Proof. reflexivity. Qed.

(** An unknown widget between valid records is logged and left out. *)
Example from_json_unknown_widget :
  CourseTabList.from_json Builtin.registry
    (Some [titled "courseware" "Courseware"; titled "course_info" "Course Info";
           {[ "type" := Py.Str "unknown_widget" ]}; titled "wiki" "Wiki"]) []
  = (Ok [CourseViewTab_init Builtin.courseware (Some (titled "courseware" "Courseware"));
         CourseViewTab_init Builtin.course_info (Some (titled "course_info" "Course Info"));
         CourseViewTab_init Builtin.wiki (Some (titled "wiki" "Wiki"))],
     [UnknownTabType (Py.Str "unknown_widget") (get_course_view_types Builtin.registry)]).
Proof. vm_compute. reflexivity. Qed.

(** The hidden Wiki tab of the toy course is shown to staff (no user) and
    not to a student. *)
Example iterate_displayable_student :
  type <$> CourseTabList.iterate_displayable Builtin.registry toy_course
             {[ "WIKI_ENABLED" ]} (Some "student") true
  = Py.Str <$> ["courseware"; "course_info"; "discussion"].
Proof. vm_compute. reflexivity. Qed.

Example iterate_displayable_staff :
  type <$> CourseTabList.iterate_displayable Builtin.registry toy_course
             {[ "WIKI_ENABLED" ]} None true
  = Py.Str <$> ["courseware"; "course_info"; "discussion"; "wiki"].
Proof. vm_compute. reflexivity. Qed.

(** [type] can be read through the dict interface but not set. *)
Example type_is_get_only :
  tab_getitem forum_tab "type" = Ok (Py.Str "external_discussion")
  ∧ tab_setitem forum_tab "type" (Py.Str "wiki")
    = Raise (KeyError "type" (tab_to_json forum_tab)).
Proof. split; reflexivity. Qed.

Lemma registered_by_construct {Settings User} (R : Registry Settings User)
    tab_dict tab_type tab :
  get_plugin R (record_type tab_dict) = Some tab_type →
  construct R tab_type tab_dict = Ok tab →
  type tab = record_type tab_dict →
  registered R tab_dict.
Proof.
  intros Hplugin Hconstruct Htype. exists tab. split; [|done].
  by eapply deserializes_to_construct.
Qed.

(** The stored tabs of the toy course survive a round trip. *)
Lemma from_json_to_json_toy :
  ∃ tabs',
    CourseTabList.from_json Builtin.registry
      (Some (CourseTabList.to_json (Some (TabObj <$> stored_tabs)))) []
      = (Ok tabs', [])
    ∧ Forall2 (λ tab' tab, CourseTab_eq tab' (TabObj tab) = Ok true
                           ∧ CourseTab_eq tab (TabObj tab') = Ok true) tabs' stored_tabs
    ∧ Forall2 (λ tab' tab, view_registered Builtin.registry tab → hidden tab' = hidden tab)
        tabs' stored_tabs
    ∧ Forall (λ tab, tab_to_json tab !! "is_hidden"
                       = if hidden tab then Some (Py.Bool true) else None) stored_tabs.
Proof.
  apply (from_json_to_json Builtin.registry stored_tabs []).
  - vm_compute. reflexivity.
  - repeat constructor; vm_compute; eauto.
Defined.

(** The swapped minimal list is rejected before anything is built. *)
Lemma from_json_validates_first_swapped :
  CourseTabList.from_json Builtin.registry (Some swapped_records) []
    = (Raise (InvalidTabsException ExpectedFirstTabCourseware), [])
  ∧ ∃ msg, InvalidTabsException ExpectedFirstTabCourseware = InvalidTabsException msg.
Proof.
  apply (from_json_validates_first Builtin.registry swapped_records []).
  vm_compute. reflexivity.
Defined.

(** The discussion link of the toy course wins over its stored Discussion tab. *)
Lemma get_discussion_toy :
  CourseTabList.get_discussion Builtin.registry toy_course [] = (Ok (Some forum_tab), [])
  ∧ (∀ reverse_url_func,
       call_link_func (link_func forum_tab) (course_id_string toy_course) reverse_url_func
       = Py.Str "http://forum.example").
Proof.
  destruct (get_discussion_correct Builtin.registry toy_course []) as [Hlink _].
  destruct (Hlink eq_refl forum_tab) as (_ & Hhere & Hresolved).
  - split; [|done]. eapply deserializes_to_construct; vm_compute; reflexivity.
  - split; [exact Hhere|exact Hresolved].
Defined.

(** The default tabs of the toy course. *)
Lemma initialize_default_toy :
  ∃ new_tabs,
    CourseTabList.initialize_default Builtin.registry toy_course
      {| CourseTabList.course_tabs := []; CourseTabList.log := [] |}
    = (Ok tt, {| CourseTabList.course_tabs := [] ++ (Some <$> new_tabs);
                 CourseTabList.log := [] |})
    ∧ type <$> new_tabs = Py.Str <$> default_types toy_course
    ∧ CourseTabList.validate_tabs (Some (TabObj <$> new_tabs)) = Ok tt.
Proof.
  apply (initialize_default_valid Builtin.registry toy_course
           {| CourseTabList.course_tabs := []; CourseTabList.log := [] |}).
  repeat constructor; eapply registered_by_construct; vm_compute; reflexivity.
Defined.

(** * Further properties *)

(** ** Validators *)

(** X1.  [key_checker(expected_keys)] answers [True] exactly when every
    expected key is a key of the dict, whatever the order and repetitions in
    [expected_keys] (none expected: always [True]); otherwise it raises
    [InvalidTabsException] when [raise_error] is set and answers [False]
    when it is not, so that it never raises with [raise_error=False]. *)
Theorem key_checker_correct (expected_keys : list string) (actual_dict : dict)
    (raise_error : bool) :
  key_checker expected_keys actual_dict raise_error =
    if bool_decide (Forall (λ key, is_Some (actual_dict !! key)) expected_keys) then Ok true
    else if raise_error then
      Raise (InvalidTabsException (ExpectedKeysNotPresent expected_keys actual_dict))
    else Ok false.
Proof.
  unfold key_checker.
  assert ((list_to_set expected_keys ∖ dom actual_dict : gset string) = ∅
          ↔ Forall (λ key, is_Some (actual_dict !! key)) expected_keys) as H.
  { rewrite Forall_forall. split.
    - intros Hempty key Hin. apply elem_of_dom.
      destruct (decide (key ∈ dom actual_dict)) as [|Hout]; [done|].
      assert (key ∈ (list_to_set expected_keys ∖ dom actual_dict : gset string)) as Hkey.
      { apply elem_of_difference. split; [|done]. by apply elem_of_list_to_set. }
      rewrite Hempty in Hkey. by apply not_elem_of_empty in Hkey.
    - intros Hall. apply leibniz_equiv, elem_of_equiv_empty. intros key.
      rewrite elem_of_difference, elem_of_list_to_set, elem_of_dom.
      intros [Hin Hout]. apply Hout, Hall, Hin. }
  destruct (decide (Forall (λ key, is_Some (actual_dict !! key)) expected_keys)).
  - rewrite !bool_decide_eq_true_2; tauto.
  - rewrite !bool_decide_eq_false_2; tauto.
Qed.

(** ** Reading and writing a tab like a dict *)

Ltac string_cases :=
  repeat match goal with
         | |- context [String.eqb ?a ?b] =>
             destruct (String.eqb_spec a b); try subst; try done
         | H : context [String.eqb ?a ?b] |- _ =>
             destruct (String.eqb_spec a b); try subst; try done
         end.

(** X2.  [tab[key] = value] succeeds exactly on the keys ['name'] and
    ['tab_id'], and ['is_hidden'] on a [CourseViewTab]; afterwards [tab[key]]
    is [value], every other key reads as before, and the type, the link
    function and the class properties are unchanged.  On any other key, and
    on ['type'] in particular, it raises [KeyError] and changes nothing. *)
Theorem setitem_getitem (tab : Tab) (key : string) (value : Py.val) :
  (settable tab key = true →
   ∃ tab', tab_setitem tab key value = Ok tab'
           ∧ tab_getitem tab' key = Ok value
           ∧ type tab' = type tab ∧ link_func tab' = link_func tab
           ∧ is_hideable tab' = is_hideable tab ∧ is_collection tab' = is_collection tab
           ∧ ∀ other default, other ≠ key →
               CourseTab_get tab' other default = CourseTab_get tab other default)
  ∧ (settable tab key = false →
     tab_setitem tab key value = Raise (KeyError key (tab_to_json tab)))
  ∧ settable tab "type" = false.
Proof.
  split; [|split].
  - unfold settable, tab_setitem, CourseViewTab_setitem, CourseTab_setitem.
    intros Hkey. destruct tab as [n i f t [v|]]; simpl in *.
    + destruct (String.eqb_spec key "is_hidden") as [->|Hh].
      { eexists. split; [done|]. repeat (split; [done|]).
        intros other default Hother.
        unfold CourseTab_get, tab_getitem, CourseViewTab_getitem, CourseTab_getitem. simpl.
        string_cases. }
      destruct (String.eqb_spec key "name") as [->|Hn].
      { eexists. split; [done|]. repeat (split; [done|]).
        intros other default Hother.
        unfold CourseTab_get, tab_getitem, CourseViewTab_getitem, CourseTab_getitem. simpl.
        string_cases. }
      destruct (String.eqb_spec key "tab_id") as [->|Hi]; [|done].
      eexists. split; [done|]. repeat (split; [done|]).
      intros other default Hother.
      unfold CourseTab_get, tab_getitem, CourseViewTab_getitem, CourseTab_getitem. simpl.
      string_cases.
    + rewrite orb_false_r in Hkey.
      destruct (String.eqb_spec key "name") as [->|Hn].
      { eexists. split; [done|]. repeat (split; [done|]).
        intros other default Hother.
        unfold CourseTab_get, tab_getitem, CourseTab_getitem. simpl.
        string_cases. }
      destruct (String.eqb_spec key "tab_id") as [->|Hi]; [|done].
      eexists. split; [done|]. repeat (split; [done|]).
      intros other default Hother.
      unfold CourseTab_get, tab_getitem, CourseTab_getitem. simpl.
      string_cases.
  - unfold settable, tab_setitem, CourseViewTab_setitem, CourseTab_setitem, tab_to_json.
    intros Hkey. destruct (view tab) as [v|]; simpl in *; string_cases.
  - unfold settable. simpl. by rewrite andb_false_r.
Qed.

(** X3.  A tab answers [get(key, default)] as its own serialized record
    would, for every key but two: ['tab_id'], which the tab has and the
    record has not, and ['is_hidden'], which the record holds only when set
    (and then as [True]).  It never raises. *)
Theorem get_like_to_json (tab : Tab) :
  (∀ key default, key ≠ "tab_id" → key ≠ "is_hidden" →
     CourseTab_get tab key default = Ok (dict_get (tab_to_json tab) key default))
  ∧ (∀ default, CourseTab_get tab "tab_id" default = Ok (tab_id tab))
  ∧ tab_to_json tab !! "tab_id" = None
  ∧ (∀ default v, view tab = Some v →
       CourseTab_get tab "is_hidden" default = Ok (is_hidden v)
       ∧ dict_get (tab_to_json tab) "is_hidden" (Py.Bool false)
         = Py.Bool (Py.truthy (is_hidden v)))
  ∧ (∀ default, view tab = None → CourseTab_get tab "is_hidden" default = Ok default).
Proof.
  split; [|split; [|split; [|split]]].
  - intros key default Hid Hhidden.
    unfold CourseTab_get, tab_getitem, CourseViewTab_getitem, CourseTab_getitem,
      tab_to_json, CourseViewTab_to_json, CourseTab_to_json, dict_get.
    destruct (view tab) as [v|]; [destruct (Py.truthy (is_hidden v))|];
      string_cases; by simplify_map_eq.
  - intros default.
    unfold CourseTab_get, tab_getitem, CourseViewTab_getitem, CourseTab_getitem.
    by destruct (view tab).
  - unfold tab_to_json, CourseViewTab_to_json, CourseTab_to_json.
    destruct (view tab) as [v|]; [destruct (Py.truthy (is_hidden v))|]; reflexivity.
  - intros default v Hv.
    unfold CourseTab_get, tab_getitem, CourseViewTab_getitem, tab_to_json,
      CourseViewTab_to_json, CourseTab_to_json, dict_get.
    rewrite Hv. split; [done|]. by destruct (Py.truthy (is_hidden v)).
  - intros default Hv.
    unfold CourseTab_get, tab_getitem, CourseTab_getitem. by rewrite Hv.
Qed.

(** ** Lookups *)

Lemma next_or_None_find (p : Tab → bool) (tab_list : list Tab) :
  CourseTabList.next_or_None (λ tab, Ok (p tab)) tab_list = Ok (List.find p tab_list).
Proof.
  induction tab_list as [|tab rest IH]; [done|]. simpl.
  by destruct (p tab).
Qed.

Lemma find_first_match (p : Tab → bool) (tab_list : list Tab) :
  first_match p tab_list (List.find p tab_list).
Proof.
  induction tab_list as [|tab rest IH]; simpl; [by intros ? []|].
  destruct (p tab) eqn:E.
  - exists [], rest. split; [done|]. split; [done|]. by intros ? [].
  - destruct (List.find p rest) as [found|]; simpl in *.
    + destruct IH as (before & after & -> & Hfound & Hbefore).
      exists (tab :: before), after. do 2 (split; [done|]).
      intros other [<-|Hin]; auto.
    + intros other [<-|Hin]; auto.
Qed.

(** X4.  [get_tab_by_type] and [get_tab_by_id] never raise and scan for the
    first match: they return the first tab of the list whose [type]
    (respectively [tab_id]) equals the argument, with no match before it, and
    [None] exactly when no tab of the list matches. *)
Theorem get_tab_by_type_and_id (tab_list : list Tab) (wanted : Py.val) :
  (∃ found, CourseTabList.get_tab_by_type tab_list wanted = Ok found
            ∧ first_match (λ tab, Py.eqb (type tab) wanted) tab_list found)
  ∧ (∃ found, CourseTabList.get_tab_by_id tab_list wanted = Ok found
              ∧ first_match (λ tab, Py.eqb (tab_id tab) wanted) tab_list found).
Proof.
  unfold CourseTabList.get_tab_by_type, CourseTabList.get_tab_by_id.
  rewrite !next_or_None_find. split; eexists; (split; [done|]); apply find_first_match.
Qed.

(** ** Serializing a mixed list *)




(** ** More on equality *)

Lemma py_eqb_sym v w : Py.eqb v w = Py.eqb w v.
Proof.
  destruct v as [|a|a|a], w as [|b|b|b]; simpl; auto.
  - by destruct a, b.
  - apply Z.eqb_sym.
  - apply String.eqb_sym.
Qed.

(** X6.  A tab is equal to itself and to its own serialized record, and
    unequal ([!=]) to neither; a dict without a ['type'] key is equal to no
    tab. *)
Theorem eq_reflexive (tab : Tab) :
  CourseTab_eq tab (TabObj tab) = Ok true
  ∧ CourseTab_ne tab (TabObj tab) = Ok false
  ∧ CourseTab_eq tab (DictObj (tab_to_json tab)) = Ok true
  ∧ CourseTab_ne tab (DictObj (tab_to_json tab)) = Ok false
  ∧ (∀ d : dict, d !! "type" = None → CourseTab_eq tab (DictObj d) = Ok false).
Proof.
  assert (CourseTab_eq tab (TabObj tab) = Ok true) as Hself.
  { change (TabObj tab) with (entry (inl tab)). rewrite CourseTab_eq_equal_to.
    unfold equal_to. simpl. by rewrite !py_eqb_refl, orb_true_r. }
  assert (CourseTab_eq tab (DictObj (tab_to_json tab)) = Ok true) as Hjson.
  { change (DictObj (tab_to_json tab)) with (entry (inr (tab_to_json tab))).
    rewrite CourseTab_eq_equal_to. unfold equal_to. simpl. unfold dict_get.
    rewrite tab_to_json_type, tab_to_json_name, !py_eqb_refl, orb_true_r.
    by rewrite bool_decide_eq_true_2. }
  unfold CourseTab_ne. rewrite Hself, Hjson. do 4 (split; [done|]).
  intros d Hd. change (DictObj d) with (entry (inr d)).
  rewrite CourseTab_eq_equal_to. unfold equal_to. simpl.
  rewrite Hd. rewrite bool_decide_eq_false_2; [done|]. by intros [? [=]].
Qed.

(** X7.  Between two tabs that both have a name, or both have none,
    equality is symmetric. *)
Theorem eq_symmetric (tab other : Tab) :
  Py.is_None (name tab) = Py.is_None (name other) →
  CourseTab_eq tab (TabObj other) = CourseTab_eq other (TabObj tab).
Proof.
  intros Hnames.
  change (TabObj other) with (entry (inl other)). change (TabObj tab) with (entry (inl tab)).
  rewrite !CourseTab_eq_equal_to. unfold equal_to. simpl.
  by rewrite Hnames, (py_eqb_sym (type tab)), (py_eqb_sym (name tab)).
Qed.

(** The stored Wiki tab of the toy course and another Wiki tab. *)
Lemma eq_symmetric_wiki :
  CourseTab_eq other_wiki
    (TabObj (CourseViewTab_init Builtin.wiki (Some (titled "wiki" "Wiki"))))
  = CourseTab_eq (CourseViewTab_init Builtin.wiki (Some (titled "wiki" "Wiki")))
      (TabObj other_wiki).
Proof. apply (eq_symmetric other_wiki). reflexivity. Defined.

(** ** Accounting for every record *)

Section accounting.
Context {Settings User : Type} (R : Registry Settings User).

Lemma from_json_loop_accounts values tabs log :
  ∃ lines,
    (CourseTabList.from_json_loop R values tabs log).2 = log ++ lines
    ∧ Forall (unknown_line R values) lines
    ∧ ∀ new_tabs, (CourseTabList.from_json_loop R values tabs log).1 = Ok new_tabs →
        length new_tabs + length lines = length tabs + length values.
Proof.
  revert tabs log. induction values as [|tab_dict rest IH]; intros tabs log.
  { exists []. simpl. rewrite app_nil_r. split; [done|]. split; [done|].
    intros ? [= <-]. lia. }
  cbn [CourseTabList.from_json_loop]. unfold bind.
  assert (∀ line, unknown_line R rest line → unknown_line R (tab_dict :: rest) line) as Hmono.
  { intros line (d & Hin & ?). exists d. split; [by right|done]. }
  destruct (get_plugin R (record_type tab_dict)) as [tab_type|] eqn:E.
  - rewrite (CourseTab_from_json_known _ _ tab_type) by done.
    destruct (construct R tab_type tab_dict) as [tab|e]; simpl.
    + destruct (IH (tabs ++ [tab]) log) as (lines & Hlog & Hlines & Hcount).
      exists lines. split; [done|]. split; [by eapply Forall_impl|].
      intros new_tabs Hrun. specialize (Hcount new_tabs Hrun).
      rewrite length_app in Hcount. simpl in *. lia.
    + exists []. rewrite app_nil_r. by repeat split.
  - rewrite CourseTab_from_json_unknown by done.
    destruct (IH tabs (log ++ [UnknownTabType (record_type tab_dict)
                                 (get_course_view_types R)]))
      as (lines & Hlog & Hlines & Hcount).
    exists (UnknownTabType (record_type tab_dict) (get_course_view_types R) :: lines).
    split; [by rewrite Hlog, <-app_assoc|]. split.
    + constructor; [|by eapply Forall_impl]. exists tab_dict. split; [by left|done].
    + intros new_tabs Hrun. specialize (Hcount new_tabs Hrun). simpl. lia.
Qed.

(** X8.  [CourseTabList.from_json] only ever appends to the log, one line
    per record of unknown type it met; when it returns, every record has
    either become a tab or left a log line, so the tabs and the new lines
    together are as many as the records.  The empty list gives the empty
    list; [None], which [validate_tabs] lets through, raises [TypeError]. *)
Theorem from_json_accounts (values : list dict) (log : Log) :
  (∃ lines,
     (CourseTabList.from_json R (Some values) log).2 = log ++ lines
     ∧ Forall (unknown_line R values) lines
     ∧ ∀ tabs, (CourseTabList.from_json R (Some values) log).1 = Ok tabs →
         length tabs + length lines = length values)
  ∧ CourseTabList.from_json R (Some []) log = (Ok [], log)
  ∧ CourseTabList.validate_tabs None = Ok tt
  ∧ CourseTabList.from_json R None log = (Raise TypeError, log).
Proof.
  split; [|done].
  unfold CourseTabList.from_json, bind, lift. cbn [option_map].
  destruct (CourseTabList.validate_tabs (Some (map DictObj values))) as [[]|e].
  - destruct (from_json_loop_accounts values [] log) as (lines & Hlog & Hlines & Hcount).
    exists lines. split; [done|]. split; [done|].
    intros tabs Hrun. by apply Hcount in Hrun.
  - exists []. rewrite app_nil_r. by repeat split.
Qed.

End accounting.

(** ** The initializer only appends *)

Lemma grows_by_ret {A} (a : A) : grows_by 0 (ret a).
Proof. intros s. exists [], []. simpl. by rewrite !app_nil_r. Qed.

Lemma grows_by_extend n new_tabs :
  length new_tabs = n → grows_by n (CourseTabList.extend new_tabs).
Proof. intros <- s. exists new_tabs, []. simpl. by rewrite app_nil_r. Qed.

Lemma grows_by_bind {A B} n k (m : M CourseTabList.InitState A)
    (f : A → M CourseTabList.InitState B) :
  grows_by n m → (∀ a, grows_by k (f a)) → grows_by (n + k) (bind m f).
Proof.
  intros Hm Hf s. unfold bind.
  destruct (Hm s) as (added & lines & Htabs & Hlog & Hcount).
  destruct (m s) as [[a|e] s'] eqn:E; simpl in *.
  - destruct (Hf a s') as (added' & lines' & Htabs' & Hlog' & Hcount').
    exists (added ++ added'), (lines ++ lines').
    rewrite Htabs', Hlog', Htabs, Hlog, !app_assoc. do 2 (split; [done|]).
    intros b Hb. rewrite length_app, (Hcount a eq_refl), (Hcount' b Hb). done.
  - exists added, lines. by repeat split.
Qed.

Lemma grows_by_eq {A} n n' (m : M CourseTabList.InitState A) :
  grows_by n m → n = n' → grows_by n' m.
Proof. by intros H <-. Qed.

Section appends.
Context {Settings User : Type} (R : Registry Settings User).

Lemma CourseTab_from_json_log tab_dict log :
  ∃ lines, (CourseTab_from_json R tab_dict log).2 = log ++ lines.
Proof.
  destruct (get_plugin R (record_type tab_dict)) as [tab_type|] eqn:E.
  - rewrite (CourseTab_from_json_known _ _ tab_type) by done.
    exists []. by rewrite app_nil_r.
  - rewrite CourseTab_from_json_unknown by done. by eexists.
Qed.

Lemma grows_by_from_json tab_dict :
  grows_by 0 (CourseTabList.with_log (CourseTab_from_json R tab_dict)).
Proof.
  intros s. unfold CourseTabList.with_log.
  destruct (CourseTab_from_json_log tab_dict (CourseTabList.log s)) as [lines Hlines].
  destruct (CourseTab_from_json R tab_dict (CourseTabList.log s)) as [r l]; simpl in *.
  exists [], lines. by rewrite app_nil_r.
Qed.

Ltac grow :=
  first [ apply grows_by_from_json | apply grows_by_extend; simpl; reflexivity
        | apply grows_by_ret
        | eapply grows_by_bind; [|intros ?] ].

(** X9.  Whatever the registry, and whether it returns or raises,
    [initialize_default] keeps what [course.tabs] and the log already hold
    and only appends to them; when it returns it has appended six entries,
    or seven when the course declares a syllabus. *)
Theorem initialize_default_appends (course : Course) (s : CourseTabList.InitState) :
  ∃ added lines,
    CourseTabList.course_tabs (CourseTabList.initialize_default R course s).2
      = CourseTabList.course_tabs s ++ added
    ∧ CourseTabList.log (CourseTabList.initialize_default R course s).2
      = CourseTabList.log s ++ lines
    ∧ ((CourseTabList.initialize_default R course s).1 = Ok tt →
       length added = if declares_syllabus course then 7 else 6).
Proof.
  assert (grows_by (if declares_syllabus course then 7 else 6)
            (CourseTabList.initialize_default R course)) as Hgrows.
  { unfold CourseTabList.initialize_default, declares_syllabus.
    destruct (syllabus_present course) as [present|]; [destruct (Py.truthy present)|];
      destruct (Py.truthy (discussion_link course));
      cbv beta iota; (eapply grows_by_eq; [repeat grow|reflexivity]). }
  destruct (Hgrows s) as (added & lines & Htabs & Hlog & Hcount).
  exists added, lines. do 2 (split; [done|]). apply Hcount.
Qed.

End appends.

(** ** More on list validation *)

Lemma for_each_type_ext types body body' :
  (∀ tab_type, body tab_type = body' tab_type) →
  CourseTabList.for_each_type types body = CourseTabList.for_each_type types body'.
Proof.
  intros Hext. induction types as [|ty types IH]; [done|]. simpl.
  by rewrite Hext, IH.
Qed.

Lemma validate_tabs_pair (a b : Tab + dict) (l : list (Tab + dict)) :
  CourseTabList.validate_tabs (Some (entry <$> a :: b :: l)) =
    if negb (Py.eqb (entry_type a) (Py.Str "courseware")) then
      Raise (InvalidTabsException ExpectedFirstTabCourseware)
    else if negb (Py.eqb (entry_type b) (Py.Str "course_info")) then
      Raise (InvalidTabsException ExpectedSecondTabCourseInfo)
    else check_singletons (a :: b :: l).
Proof.
  set (tabs := a :: b :: l).
  unfold CourseTabList.validate_tabs.
  change (length (entry <$> tabs) =? 0) with false.
  change (length (entry <$> tabs) <? 2) with false.
  change ((entry <$> tabs) !! 0) with (Some (entry a)).
  change ((entry <$> tabs) !! 1) with (Some (entry b)).
  cbv iota. rewrite !obj_get_entry_type. cbn [rbind].
  destruct (negb (Py.eqb (entry_type a) (Py.Str "courseware"))); [done|].
  destruct (negb (Py.eqb (entry_type b) (Py.Str "course_info"))); [done|].
  apply for_each_type_ext. intros ty. apply validate_num_entries.
Qed.

Lemma check_singletons_types (l l' : list (Tab + dict)) :
  (∀ tab_type, occurrences tab_type l = occurrences tab_type l') →
  check_singletons l = check_singletons l'.
Proof.
  intros Hocc. apply for_each_type_ext. intros ty. by rewrite Hocc.
Qed.

Lemma occurrences_app tab_type (l l' : list (Tab + dict)) :
  occurrences tab_type (l ++ l') = occurrences tab_type l + occurrences tab_type l'.
Proof. unfold occurrences. by rewrite filter_app, length_app. Qed.

Lemma occurrences_Permutation tab_type (l l' : list (Tab + dict)) :
  l ≡ₚ l' → occurrences tab_type l = occurrences tab_type l'.
Proof. intros H. unfold occurrences. by rewrite H. Qed.

Lemma check_singletons_first_repeated (l : list (Tab + dict)) :
  check_singletons l =
    match first_repeated l with
    | Some tab_type =>
        Raise (InvalidTabsException
                 (TabTypeAppearsTooOften tab_type (occurrences tab_type l) 1))
    | None => Ok tt
    end.
Proof.
  unfold check_singletons, first_repeated.
  induction CourseTabList.singleton_types as [|ty types IH]; [done|]. simpl.
  destruct (Nat.ltb_spec 1 (occurrences ty l)); case_decide; try lia; done.
Qed.

(** X12.  Only the first two positions of a tab list are fixed: reordering
    the tabs that follow them changes neither whether [validate_tabs] passes
    nor what it raises. *)
Theorem validate_tabs_reorder (a b : Tab + dict) (l l' : list (Tab + dict)) :
  l ≡ₚ l' →
  CourseTabList.validate_tabs (Some (entry <$> a :: b :: l))
  = CourseTabList.validate_tabs (Some (entry <$> a :: b :: l')).
Proof.
  intros Hperm. rewrite !validate_tabs_pair.
  rewrite (check_singletons_types (a :: b :: l) (a :: b :: l')); [done|].
  intros ty. apply occurrences_Permutation. by do 2 constructor.
Qed.

(** X13.  Appending a tab to a list of at least two keeps [validate_tabs]
    passing exactly when the new tab's type is not a singleton type that the
    list already holds; in particular a tab of a non-singleton type can
    always be appended to a valid list. *)
Theorem validate_tabs_append (a b : Tab + dict) (l : list (Tab + dict)) (x : Tab + dict) :
  CourseTabList.validate_tabs (Some (entry <$> a :: b :: l ++ [x])) = Ok tt ↔
    CourseTabList.validate_tabs (Some (entry <$> a :: b :: l)) = Ok tt
    ∧ ∀ tab_type, tab_type ∈ CourseTabList.singleton_types →
        entry_type x = Py.Str tab_type → occurrences tab_type (a :: b :: l) = 0.
Proof.
  rewrite !validate_tabs_pair.
  destruct (negb (Py.eqb (entry_type a) (Py.Str "courseware"))); [by split; [|intros []]|].
  destruct (negb (Py.eqb (entry_type b) (Py.Str "course_info"))); [by split; [|intros []]|].
  unfold check_singletons.
  destruct (for_each_type_spec CourseTabList.singleton_types
    (λ tab_type, if decide (occurrences tab_type (a :: b :: l ++ [x]) ≤ 1) then Ok tt
       else Raise (InvalidTabsException (TabTypeAppearsTooOften tab_type
                     (occurrences tab_type (a :: b :: l ++ [x])) 1)))) as [-> _].
  { intros ty. case_decide; eauto. }
  destruct (for_each_type_spec CourseTabList.singleton_types
    (λ tab_type, if decide (occurrences tab_type (a :: b :: l) ≤ 1) then Ok tt
       else Raise (InvalidTabsException (TabTypeAppearsTooOften tab_type
                     (occurrences tab_type (a :: b :: l)) 1)))) as [-> _].
  { intros ty. case_decide; eauto. }
  assert (∀ ty, occurrences ty (a :: b :: l ++ [x])
                = occurrences ty (a :: b :: l)
                  + (if decide (entry_type x = Py.Str ty) then 1 else 0)) as Hocc.
  { intros ty. change (a :: b :: l ++ [x]) with ((a :: b :: l) ++ [x]).
    rewrite occurrences_app. f_equal. unfold occurrences.
    rewrite filter_cons, filter_nil. by case_decide. }
  split.
  - intros H. split.
    + intros ty Hty. specialize (H ty Hty). rewrite Hocc in H.
      repeat case_decide; done || lia.
    + intros ty Hty Hx. specialize (H ty Hty). rewrite Hocc in H.
      destruct (decide (entry_type x = Py.Str ty)); [|done].
      case_decide; [lia|done].
  - intros [H Hx] ty Hty. specialize (H ty Hty). rewrite Hocc.
    destruct (decide (entry_type x = Py.Str ty)) as [E|E].
    + rewrite (Hx ty Hty E). by rewrite decide_True by (simpl; lia).
    + rewrite Nat.add_0_r. by case_decide.
Qed.

(** X14.  [validate_tabs] reports the first violated rule, in a fixed
    order: fewer than two tabs, then a first tab that is not Courseware,
    then a second tab that is not Course Info, then the first singleton type
    (in the order courseware, course_info, notes, textbooks, pdf_textbooks,
    html_textbooks) that occurs more than once, with the number of times it
    occurs. *)
Theorem validate_tabs_complaint (l : list (Tab + dict)) :
  CourseTabList.validate_tabs (Some (entry <$> l)) =
    match l with
    | [] => Ok tt
    | [_] => Raise (InvalidTabsException ExpectedAtLeastTwoTabs)
    | a :: b :: _ =>
        if negb (Py.eqb (entry_type a) (Py.Str "courseware")) then
          Raise (InvalidTabsException ExpectedFirstTabCourseware)
        else if negb (Py.eqb (entry_type b) (Py.Str "course_info")) then
          Raise (InvalidTabsException ExpectedSecondTabCourseInfo)
        else
          match first_repeated l with
          | Some tab_type =>
              Raise (InvalidTabsException
                       (TabTypeAppearsTooOften tab_type (occurrences tab_type l) 1))
          | None => Ok tt
          end
    end.
Proof.
  destruct l as [|a [|b l]]; [done|done|].
  rewrite validate_tabs_pair. by rewrite check_singletons_first_repeated.
Qed.

(** The outcome of [validate_tabs] depends on the types of the entries only. *)
Lemma validate_tabs_types_eq (l l' : list (Tab + dict)) :
  entry_type <$> l = entry_type <$> l' →
  CourseTabList.validate_tabs (Some (entry <$> l))
  = CourseTabList.validate_tabs (Some (entry <$> l')).
Proof.
  intros Htypes.
  destruct l as [|a [|b l]], l' as [|a' [|b' l']]; try done.
  rewrite !validate_tabs_pair.
  rewrite (check_singletons_types (a :: b :: l) (a' :: b' :: l'))
    by (intros ty; by apply occurrences_types).
  rewrite !fmap_cons in Htypes. by injection Htypes as -> -> _.
Qed.

Lemma validate_tabs_of_types (tabs : list Tab) (types : list string) :
  type <$> tabs = Py.Str <$> types →
  CourseTabList.validate_tabs (Some (TabObj <$> tabs))
  = CourseTabList.validate_tabs
      (Some (DictObj <$> ((λ ty, {[ "type" := Py.Str ty ]}) <$> types))).
Proof.
  intros Htypes.
  assert (TabObj <$> tabs = entry <$> (inl <$> tabs)) as ->.
  { by rewrite <-list_fmap_compose. }
  assert (DictObj <$> ((λ ty, {[ "type" := Py.Str ty ]}) <$> types)
          = entry <$> ((λ ty, inr {[ "type" := Py.Str ty ]}) <$> types)) as ->.
  { by rewrite <-!list_fmap_compose. }
  apply validate_tabs_types_eq.
  revert types Htypes. induction tabs as [|tab tabs IH]; intros [|ty types]; try done.
  rewrite !fmap_cons. intros [= Htab Hrest]. f_equal; [|by apply IH].
  simpl. unfold dict_get. by rewrite lookup_singleton_eq.
Qed.

(** ** Running the initializer twice *)

Section twice.
Context {Settings User : Type} (R : Registry Settings User).

Ltac run_registered :=
  match goal with
  | H : deserializes_to _ ?d _
    |- context [CourseTabList.with_log (CourseTab_from_json _ ?d) _] =>
      rewrite (with_log_deserializes _ _ _ _ H);
      cbv beta iota; cbn [CourseTabList.course_tabs CourseTabList.log]
  end.

(** What [initialize_default] does to any state when the built-in types are
    registered. *)
Lemma initialize_default_registered (course : Course) :
  Forall (registered R) (builtin_records course) →
  ∃ new_tabs,
    type <$> new_tabs = Py.Str <$> default_types course
    ∧ ∀ s, CourseTabList.initialize_default R course s =
        (Ok tt,
         {| CourseTabList.course_tabs := CourseTabList.course_tabs s ++ (Some <$> new_tabs);
            CourseTabList.log := CourseTabList.log s |}).
Proof.
  unfold builtin_records. rewrite !Forall_cons.
  intros ((courseware & Hcourseware & Tcourseware) & (course_info & Hcourse_info & Tcourse_info)
          & (syllabus & Hsyllabus & Tsyllabus) & (external & Hexternal & Texternal)
          & (discussion & Hdiscussion & Tdiscussion) & (textbooks & Htextbooks & Ttextbooks)
          & (wiki & Hwiki & Twiki) & (progress & Hprogress & Tprogress) & _).
  rewrite record_type_titled in Tcourseware, Tcourse_info, Tsyllabus, Tdiscussion,
    Ttextbooks, Twiki, Tprogress.
  change (record_type _) with (Py.Str "external_discussion") in Texternal.
  unfold titled in *. unfold external_discussion_record in *.
  exists ([courseware; course_info]
          ++ (if declares_syllabus course then [syllabus] else [])
          ++ [textbooks; if Py.truthy (discussion_link course) then external else discussion;
              wiki; progress]).
  split.
  - unfold default_types.
    destruct (declares_syllabus course), (Py.truthy (discussion_link course)); simpl;
      by rewrite Tcourseware, Tcourse_info, ?Tsyllabus, Ttextbooks, ?Texternal,
           ?Tdiscussion, Twiki, Tprogress.
  - intros s. unfold CourseTabList.initialize_default, declares_syllabus.
    unfold bind, CourseTabList.extend, ret.
    do 2 run_registered.
    destruct (syllabus_present course) as [present|]; [destruct (Py.truthy present)|];
      destruct (Py.truthy (discussion_link course));
      repeat run_registered; by rewrite <-?app_assoc.
Qed.

(** X10.  [initialize_default] is not idempotent: run a second time on the
    course it has just initialized, it appends the same tabs again, and the
    list then fails [validate_tabs] because Courseware appears twice. *)
Theorem initialize_default_twice (course : Course) (log : Log) :
  Forall (registered R) (builtin_records course) →
  ∃ new_tabs,
    bind (CourseTabList.initialize_default R course)
         (λ _, CourseTabList.initialize_default R course)
         {| CourseTabList.course_tabs := []; CourseTabList.log := log |}
    = (Ok tt, {| CourseTabList.course_tabs := Some <$> (new_tabs ++ new_tabs);
                 CourseTabList.log := log |})
    ∧ CourseTabList.validate_tabs (Some (TabObj <$> (new_tabs ++ new_tabs)))
      = Raise (InvalidTabsException (TabTypeAppearsTooOften "courseware" 2 1)).
Proof.
  intros Hregistered.
  destruct (initialize_default_registered course Hregistered) as (new_tabs & Htypes & Hrun).
  exists new_tabs. split.
  - unfold bind. rewrite !Hrun. simpl. by rewrite fmap_app.
  - rewrite (validate_tabs_of_types _ (default_types course ++ default_types course)).
    + unfold default_types.
      by destruct (declares_syllabus course), (Py.truthy (discussion_link course)).
    + by rewrite !fmap_app, Htypes.
Qed.

End twice.

(** ** Tabs shown without inlining *)

(** X11.  With [inline_collections=False], [iterate_displayable] yields
    stored tabs only, each at most as often as it is stored and in the
    stored order: its output is a sublist of [course.tabs], whoever the user
    and whatever the registered classes. *)
Theorem iterate_displayable_sublist {Settings User} (R : Registry Settings User)
    (course : Course) (settings : Settings) (user : option User) :
  sublist (CourseTabList.iterate_displayable R course settings user false) (tabs course).
Proof.
  rewrite iterate_displayable_unfold.
  induction (tabs course) as [|tab rest IH]; [done|]. cbn [List.filter].
  destruct (passes R course settings user tab); [|by constructor].
  cbn [flat_map]. unfold yielded_for at 1.
  destruct (is_collection tab); [case_bool_decide|]; simpl; by constructor.
Qed.

(** ** The persisted form is stable *)

Lemma tab_to_json_eq (tab tab' : Tab) :
  type tab' = type tab → name tab' = name tab → hidden tab' = hidden tab →
  tab_to_json tab' = tab_to_json tab.
Proof.
  unfold tab_to_json, CourseViewTab_to_json, CourseTab_to_json, hidden.
  intros -> -> Hhidden.
  destruct (view tab') as [v'|], (view tab) as [v|]; simpl in *;
    repeat match goal with
           | H : context [Py.truthy ?x] |- _ => destruct (Py.truthy x)
           end; done.
Qed.

(** X15.  For a structurally valid list of tabs whose types are registered
    as course view types under their own names, with validators that accept
    the serialized tabs, saving, loading and saving again writes the same
    records as saving once. *)
Theorem to_json_stable {Settings User} (R : Registry Settings User)
    (tabs : list Tab) (log : Log) :
  CourseTabList.validate_tabs (Some (TabObj <$> tabs)) = Ok tt →
  Forall (known_valid R) tabs →
  Forall (view_registered R) tabs →
  ∃ tabs',
    CourseTabList.from_json R (Some (CourseTabList.to_json (Some (TabObj <$> tabs)))) log
      = (Ok tabs', log)
    ∧ CourseTabList.to_json (Some (TabObj <$> tabs'))
      = CourseTabList.to_json (Some (TabObj <$> tabs)).
Proof.
  intros Hvalid Hknown Hview.
  assert (∃ tabs', Forall2 (deserializes_to R) (tab_to_json <$> tabs) tabs'
                   ∧ tab_to_json <$> tabs' = tab_to_json <$> tabs) as (tabs' & Hd & Hjson).
  { clear Hvalid. induction tabs as [|tab rest IH].
    - exists []. split; [constructor|done].
    - apply Forall_cons in Hknown as [Htab Hknown], Hview as [Hv Hview].
      destruct (IH Hknown Hview) as (tabs' & Hd & Hjson).
      destruct (round_trip_one R tab Htab) as (tab' & ? & ? & ? & Hh).
      exists (tab' :: tabs'). rewrite !fmap_cons. split; [by constructor|].
      f_equal; [|done]. apply tab_to_json_eq; auto. }
  exists tabs'. split.
  - rewrite to_json_tabs. unfold CourseTabList.from_json, bind, lift. cbn [option_map].
    change (map DictObj (tab_to_json <$> tabs)) with (DictObj <$> (tab_to_json <$> tabs)).
    rewrite validate_tabs_to_json by done.
    by rewrite (from_json_loop_deserialized _ _ tabs').
  - by rewrite !to_json_tabs.
Qed.

(** ** What a serialized tab holds *)

(** X16.  The record a tab serializes to holds ['type'] and ['name'],
    holds ['is_hidden'] exactly when the flag is set, and holds no other
    key; so it always passes the base validator and [need_name], with
    [raise_error] set or not. *)
Theorem to_json_keys (tab : Tab) :
  dom (tab_to_json tab)
    = ({[ "type"; "name" ]} ∪ (if hidden tab then {[ "is_hidden" ]} else ∅) : gset string)
  ∧ (∀ raise_error, CourseTab_validate (tab_to_json tab) raise_error = Ok true)
  ∧ (∀ raise_error, need_name (tab_to_json tab) raise_error = Ok true).
Proof.
  split; [|split].
  - unfold tab_to_json, CourseViewTab_to_json, CourseTab_to_json, hidden.
    destruct (view tab) as [v|]; [destruct (Py.truthy (is_hidden v))|];
      rewrite ?dom_insert_L, dom_singleton_L; set_solver.
  - intros raise_error. unfold CourseTab_validate. rewrite key_checker_one.
    by rewrite tab_to_json_type, bool_decide_eq_true_2.
  - intros raise_error. unfold need_name. rewrite key_checker_one.
    by rewrite tab_to_json_name, bool_decide_eq_true_2.
Qed.

(** ** The further properties on the toy course *)

(** Swapping the two tabs after the required prefix. *)
Lemma validate_tabs_reorder_toy :
  CourseTabList.validate_tabs
    (Some (entry <$> inr (titled "courseware" "Courseware")
                     :: inr (titled "course_info" "Course Info")
                     :: [static_tab "Handouts"; inr (titled "wiki" "Wiki")]))
  = CourseTabList.validate_tabs
      (Some (entry <$> inr (titled "courseware" "Courseware")
                       :: inr (titled "course_info" "Course Info")
                       :: [inr (titled "wiki" "Wiki"); static_tab "Handouts"])).
Proof. apply validate_tabs_reorder. apply perm_swap. Defined.

(** Initializing the toy course twice. *)
Lemma initialize_default_twice_toy :
  ∃ new_tabs,
    bind (CourseTabList.initialize_default Builtin.registry toy_course)
         (λ _, CourseTabList.initialize_default Builtin.registry toy_course)
         {| CourseTabList.course_tabs := []; CourseTabList.log := [] |}
    = (Ok tt, {| CourseTabList.course_tabs := Some <$> (new_tabs ++ new_tabs);
                 CourseTabList.log := [] |})
    ∧ CourseTabList.validate_tabs (Some (TabObj <$> (new_tabs ++ new_tabs)))
      = Raise (InvalidTabsException (TabTypeAppearsTooOften "courseware" 2 1)).
Proof.
  apply (initialize_default_twice Builtin.registry toy_course []).
  repeat constructor; eapply registered_by_construct; vm_compute; reflexivity.
Defined.

(** Saving the stored tabs of the toy course, loading them and saving again. *)
Lemma to_json_stable_toy :
  ∃ tabs',
    CourseTabList.from_json Builtin.registry
      (Some (CourseTabList.to_json (Some (TabObj <$> stored_tabs)))) []
      = (Ok tabs', [])
    ∧ CourseTabList.to_json (Some (TabObj <$> tabs'))
      = CourseTabList.to_json (Some (TabObj <$> stored_tabs)).
Proof.
  apply (to_json_stable Builtin.registry stored_tabs []).
  - vm_compute. reflexivity.
  - repeat constructor; vm_compute; eauto.
  - repeat constructor; vm_compute; eauto.
Defined.
